(** * go-corenglish: a shallow embedding of the task-management service

    The development follows the packages of the repository:
    [strconv], [strings] and [uuid] give the few library functions the code
    calls on its inputs; [enum], [models], [params] and [response] are the
    data model; [repositories] is the GORM-backed task store; [services] has
    the two task services (with and without the list cache); [handlers] are
    the gin handlers; [middleware] has the authentication and rate-limit
    middlewares; [config] is the environment loader.

    Go's [int] is the 64-bit signed integer; it is a [Z] here and the places
    where the code can leave the range are written with [wrap64].  A nullable
    pointer ([*string], [*enum.TaskStatus]) is an [option]. *)

From Stdlib Require Import ZArith NArith String Ascii List Lia.
From Stdlib Require Import DecimalString DecimalPos DecimalZ DecimalFacts.
From stdpp Require Import base option list gmap strings sorting.

Local Open Scope string_scope.
Local Open Scope Z_scope.

(** ** Machine integers *)

Definition MaxInt64 : Z := 9223372036854775807.
Definition MinInt64 : Z := -9223372036854775808.

(** Two's complement wrap-around of a 64-bit signed result. *)
Definition wrap64 (z : Z) : Z := (z + 2^63) mod 2^64 - 2^63.

(** ** Package strconv *)

Module strconv.

(** [strconv.Itoa]: decimal rendering, ["-"] before a negative number. *)
Definition Itoa (z : Z) : string := NilZero.string_of_int (Z.to_int z).

Definition digit_of (c : ascii) : option Z :=
  let n := Z.of_N (N_of_ascii c) in
  if (48 <=? n) && (n <=? 57) then Some (n - 48) else None.

(** The digit loop [n = n*10 + int(ch)]; [None] is the syntax error. *)
Fixpoint digits (s : string) (n : Z) : option Z :=
  match s with
  | EmptyString => Some n
  | String c s' =>
      match digit_of c with
      | Some d => digits s' (n * 10 + d)
      | None => None
      end
  end.

(** [strconv.Atoi] returns a value together with an error.  On a syntax
    error the value is 0; on a range error it is the nearest bound. *)
Definition Atoi (s : string) : Z * bool :=
  match s with
  | EmptyString => (0, false)
  | String c s' =>
      let neg := Ascii.eqb c "-" in
      let body := if neg || Ascii.eqb c "+" then s' else s in
      match body with
      | EmptyString => (0, false)
      | _ =>
          match digits body 0 with
          | None => (0, false)
          | Some n =>
              if neg then
                if n <=? 2^63 - 1 then (- n, true)
                else if n =? 2^63 then (MinInt64, true)
                else (MinInt64, false)
              else
                if n <=? MaxInt64 then (n, true) else (MaxInt64, false)
          end
      end
  end.

End strconv.

(** ** Package strings *)

Module strings.

(** [strings.Split s sep] for a non-empty [sep]: the pieces of [s] between
    the successive, non-overlapping occurrences of [sep].  [skip] counts
    the characters of the occurrence being stepped over and [cur] is the
    piece being built. *)
Fixpoint split_from (sep s : string) (skip : nat) (cur : string)
  : list string :=
  match s with
  | EmptyString => [cur]
  | String c s' =>
      match skip with
      | S k => split_from sep s' k cur
      | O =>
          if String.prefix sep s
          then cur :: split_from sep s' (String.length sep - 1) ""
          else split_from sep s' 0 (cur +:+ String c "")
      end
  end.

Definition Split (s sep : string) : list string := split_from sep s 0 "".

(** [strings.HasPrefix]. *)
Definition HasPrefix (s p : string) : bool := String.prefix p s.

End strings.

(** ** Package uuid (github.com/google/uuid)

    A UUID is an array of 16 bytes; it is kept as the 128-bit number whose
    big-endian bytes they are. *)

Module uuid.

Definition UUID := N.
Definition Nil : UUID := 0%N.

Definition byte_at (u : UUID) (i : nat) : N :=
  N.land (N.shiftr u (8 * N.of_nat (15 - i))) 255.

Definition hexdigit (n : N) : ascii :=
  nth (N.to_nat n) (list_ascii_of_string "0123456789abcdef") "0"%char.

Definition encode_byte (b : N) : string :=
  String (hexdigit (b / 16)) (String (hexdigit (b mod 16)) "").

Definition encode (u : UUID) (from to : nat) : string :=
  fold_right (fun i acc => encode_byte (byte_at u i) +:+ acc) ""
             (seq from (to - from)).

(** [UUID.String]: xxxxxxxx-xxxx-xxxx-xxxx-xxxxxxxxxxxx. *)
Definition to_string (u : UUID) : string :=
  encode u 0 4 +:+ "-" +:+ encode u 4 6 +:+ "-" +:+ encode u 6 8 +:+ "-"
    +:+ encode u 8 10 +:+ "-" +:+ encode u 10 16.

Definition xval (c : ascii) : option N :=
  let n := N_of_ascii c in
  if (48 <=? n)%N && (n <=? 57)%N then Some (n - 48)%N
  else if (97 <=? n)%N && (n <=? 102)%N then Some (n - 87)%N
  else if (65 <=? n)%N && (n <=? 70)%N then Some (n - 55)%N
  else None.

(** Hexadecimal digits, most significant first. *)
Fixpoint hex (s : string) (acc : N) : option N :=
  match s with
  | EmptyString => Some acc
  | String c s' =>
      match xval c with
      | Some d => hex s' (acc * 16 + d)%N
      | None => None
      end
  end.

Definition dash_at (s : string) (i : nat) : bool :=
  match String.get i s with
  | Some c => Ascii.eqb c "-"
  | None => false
  end.

Definition canonical (s : string) : option UUID :=
  if dash_at s 8 && dash_at s 13 && dash_at s 18 && dash_at s 23 then
    hex (substring 0 8 s +:+ substring 9 4 s +:+ substring 14 4 s
           +:+ substring 19 4 s +:+ substring 24 12 s) 0%N
  else None.

Definition lower (c : ascii) : ascii :=
  let n := N_of_ascii c in
  if (65 <=? n)%N && (n <=? 90)%N then ascii_of_N (n + 32) else c.

Fixpoint lower_string (s : string) : string :=
  match s with
  | EmptyString => EmptyString
  | String c s' => String (lower c) (lower_string s')
  end.

(** [uuid.Parse]: the four accepted lengths. *)
Definition Parse (s : string) : option UUID :=
  match String.length s with
  | 36%nat => canonical s
  | 45%nat =>
      if String.eqb (lower_string (substring 0 9 s)) "urn:uuid:"
      then canonical (substring 9 36 s) else None
  | 38%nat => canonical (substring 1 37 s)
  | 32%nat => hex s 0%N
  | _ => None
  end.

End uuid.

Abbreviation UUID := uuid.UUID.
Bind Scope N_scope with uuid.UUID.

(** ** Package enum *)

Module enum.

Definition TaskStatus := string.

Definition StatusToDo : TaskStatus := "TO_DO".
Definition StatusInProgress : TaskStatus := "IN_PROGRESS".
Definition StatusDone : TaskStatus := "DONE".

Definition IsValid (s : TaskStatus) : bool :=
  String.eqb s StatusToDo || String.eqb s StatusInProgress
  || String.eqb s StatusDone.

End enum.

(** ** Package models *)

(** A [time.Time], in nanoseconds since the Unix epoch.  The zero value of
    the type is the first instant of year 1. *)
Definition Time := Z.
Definition zeroTime : Time := -62135596800 * 1000000000.
Definition IsZero (t : Time) : bool := t =? zeroTime.

Module models.

Record Task := {
  ID : UUID;
  Title : string;
  Description : option string;
  Status : enum.TaskStatus;
  UserID : UUID;
  CreatedAt : Time;
  UpdatedAt : Time
}.

Definition with_ID (t : Task) (id : UUID) : Task :=
  {| ID := id; Title := Title t; Description := Description t;
     Status := Status t; UserID := UserID t; CreatedAt := CreatedAt t;
     UpdatedAt := UpdatedAt t |}.

Definition with_Title (t : Task) (x : string) : Task :=
  {| ID := ID t; Title := x; Description := Description t;
     Status := Status t; UserID := UserID t; CreatedAt := CreatedAt t;
     UpdatedAt := UpdatedAt t |}.

Definition with_Description (t : Task) (x : option string) : Task :=
  {| ID := ID t; Title := Title t; Description := x;
     Status := Status t; UserID := UserID t; CreatedAt := CreatedAt t;
     UpdatedAt := UpdatedAt t |}.

Definition with_Status (t : Task) (x : enum.TaskStatus) : Task :=
  {| ID := ID t; Title := Title t; Description := Description t;
     Status := x; UserID := UserID t; CreatedAt := CreatedAt t;
     UpdatedAt := UpdatedAt t |}.

Definition with_UserID (t : Task) (x : UUID) : Task :=
  {| ID := ID t; Title := Title t; Description := Description t;
     Status := Status t; UserID := x; CreatedAt := CreatedAt t;
     UpdatedAt := UpdatedAt t |}.

Definition with_CreatedAt (t : Task) (x : Time) : Task :=
  {| ID := ID t; Title := Title t; Description := Description t;
     Status := Status t; UserID := UserID t; CreatedAt := x;
     UpdatedAt := UpdatedAt t |}.

Definition with_UpdatedAt (t : Task) (x : Time) : Task :=
  {| ID := ID t; Title := Title t; Description := Description t;
     Status := Status t; UserID := UserID t; CreatedAt := CreatedAt t;
     UpdatedAt := x |}.

(** The hook [Task.BeforeCreate]; [fresh] is what [uuid.New] returns. *)
Definition BeforeCreate (fresh : UUID) (t : Task) : Task :=
  if N.eqb (ID t) uuid.Nil then with_ID t fresh else t.

End models.

(** ** Package response *)

Module response.

Record CustomError := {
  StatusCode : Z;
  Error : string;
  Message : string
}.

(** Modelled from the spec: package internal/commons/response is not among
    the sources; section 7 maps the validation kind to HTTP 400. *)
Definition BadRequestError (msg : string) : CustomError :=
  {| StatusCode := 400; Error := "validation"; Message := msg |}.

(** Modelled from the spec: package internal/commons/response is not among
    the sources; section 7 maps the unauthorized kind to HTTP 401, and the
    caller's detail and message travel with it. *)
Definition UnauthorizedErrorWithAdditionalInfo (info : option string)
    (message : option string) : CustomError :=
  {| StatusCode := 401; Error := "unauthorized" +:+ default "" info;
     Message := default "" message |}.

(** Modelled from the spec: package internal/commons/response is not among
    the sources; section 7 maps the repository kind to HTTP 500. *)
Definition RepositoryError (msg : string) : CustomError :=
  {| StatusCode := 500; Error := "repository"; Message := msg |}.

(** Modelled from the spec: package internal/commons/response is not among
    the sources; section 7 maps the internal kind to HTTP 500. *)
Definition GeneralError (msg : string) : CustomError :=
  {| StatusCode := 500; Error := "internal"; Message := msg |}.

(** Modelled from the spec: package internal/commons/response is not among
    the sources; section 6 gives 201 for a created task. *)
Definition StatusCreated : Z := 201.

End response.

(** ** Package params *)

Module params.

Module CreateTaskRequest.
Record t := { Title : string; Description : option string }.
End CreateTaskRequest.

Module UpdateTaskRequest.
Record t := {
  Title : option string;
  Description : option string;
  Status : option enum.TaskStatus
}.
End UpdateTaskRequest.

Module TaskResponse.
Record t := {
  ID : UUID;
  Title : string;
  Description : option string;
  Status : enum.TaskStatus;
  CreatedAt : Time;
  UpdatedAt : Time
}.
End TaskResponse.

Module TasksResponse.
Record t := {
  Tasks : list TaskResponse.t;
  Total : Z;
  Page : Z;
  Limit : Z;
  TotalPages : Z
}.
End TasksResponse.

End params.

(** The literal every service function builds from a task. *)
Definition to_response (task : models.Task) : params.TaskResponse.t :=
  {| params.TaskResponse.ID := models.ID task;
     params.TaskResponse.Title := models.Title task;
     params.TaskResponse.Description := models.Description task;
     params.TaskResponse.Status := models.Status task;
     params.TaskResponse.CreatedAt := models.CreatedAt task;
     params.TaskResponse.UpdatedAt := models.UpdatedAt task |}.

(** A Go [error], by its message; functions returning [(T, error)]. *)
Inductive result (A : Type) : Type :=
  | Ok (a : A)
  | Err (msg : string).
Arguments Ok {A} a.
Arguments Err {A} msg.

(** [utf8.RuneCountInString]: one rune per byte that is not a continuation
    byte (10xxxxxx). *)
Fixpoint RuneCount (s : string) : Z :=
  match s with
  | EmptyString => 0
  | String c s' =>
      (if N.eqb (N.shiftr (N_of_ascii c) 6) 2 then 0 else 1) + RuneCount s'
  end.

(** ** Package repositories

    The [tasks] table behind GORM: its rows in the order the table holds
    them, the ids of the [users] table (the target of the foreign key), and
    [fault], the driver error every statement fails with while the database
    cannot be reached. *)

Module repositories.

Import models.

Record DB := {
  users : gset UUID;
  tasks : list Task;
  fault : option string
}.

Definition with_tasks (db : DB) (rows : list Task) : DB :=
  {| users := users db; tasks := rows; fault := fault db |}.

(** [WHERE id = ? AND user_id = ?]. *)
Definition where_id_user (id userID : UUID) (t : Task) : bool :=
  N.eqb (ID t) id && N.eqb (UserID t) userID.

(** [WHERE user_id = ?], and [AND status = ?] when a status is given. *)
Definition where_user_status (userID : UUID) (status : string) (t : Task)
  : bool :=
  N.eqb (UserID t) userID
  && (if String.eqb status "" then true else String.eqb (Status t) status).

(** [ORDER BY created_at DESC]: a row may come before another when it is
    not older. *)
Definition created_desc (a b : Task) : Prop := CreatedAt b <= CreatedAt a.

(** SQL leaves the order of rows with equal keys open.  The rows are
    sorted here by insertion, which keeps such rows in the order of the
    table. *)
Fixpoint insert_row (t : Task) (sorted : list Task) : list Task :=
  match sorted with
  | [] => [t]
  | r :: rest =>
      if CreatedAt t <? CreatedAt r then r :: insert_row t rest
      else t :: r :: rest
  end.

Definition order_by_created_desc (rows : list Task) : list Task :=
  fold_right insert_row [] rows.

(** The column constraints of the migration: [status task_status] and
    [title VARCHAR(255)]. *)
Definition row_ok (t : Task) : bool :=
  enum.IsValid (Status t) && (RuneCount (Title t) <=? 255).

(** [taskRepository.Create]: hook, timestamps and column default, then
    the insert under the primary key and the foreign key. *)
Definition Create (fresh : UUID) (now : Time) (task : Task) (db : DB)
  : result Task * DB :=
  match fault db with
  | Some e => (Err ("failed to create task: " +:+ e), db)
  | None =>
      let t1 := BeforeCreate fresh task in
      let t2 := if IsZero (CreatedAt t1) then with_CreatedAt t1 now else t1 in
      let t3 := if IsZero (UpdatedAt t2) then with_UpdatedAt t2 now else t2 in
      let t4 := if String.eqb (Status t3) "" then with_Status t3 "TO_DO"
                else t3 in
      if row_ok t4
         && bool_decide (UserID t4 ∈ users db)
         && negb (existsb (fun r => N.eqb (ID r) (ID t4)) (tasks db))
      then (Ok t4, with_tasks db (tasks db ++ [t4])%list)
      else (Err "failed to create task: constraint violation", db)
  end.

(** [taskRepository.GetByID]. *)
Definition GetByID (id userID : UUID) (db : DB) : result Task :=
  match fault db with
  | Some e => Err ("failed to get task: " +:+ e)
  | None =>
      match List.find (where_id_user id userID) (tasks db) with
      | Some t => Ok t
      | None => Err "task not found"
      end
  end.

(** [Offset(n)] adds an OFFSET clause for a positive [n] only and
    [Limit(n)] adds a LIMIT clause unless [n] is negative. *)
Definition Offset (n : Z) (rows : list Task) : list Task :=
  if 0 <? n then drop (Z.to_nat n) rows else rows.

Definition Limit (n : Z) (rows : list Task) : list Task :=
  if 0 <=? n then take (Z.to_nat n) rows else rows.

(** [taskRepository.GetAll]: the count and the page under one filter. *)
Definition GetAll (userID : UUID) (status : string) (page limit : Z)
    (db : DB) : result (list Task * Z) :=
  let offset := wrap64 (wrap64 (page - 1) * limit) in
  let query := List.filter (where_user_status userID status) (tasks db) in
  match fault db with
  | Some e => Err ("failed to count tasks: " +:+ e)
  | None =>
      let total := Z.of_nat (length query) in
      let found := Limit limit (Offset offset (order_by_created_desc query)) in
      Ok (found, total)
  end.

(** What [Updates(task)] writes into a matching row: the fields of the
    struct that are not zero, and the update time. *)
Definition assign (now : Time) (task row : Task) : Task :=
  {| ID := ID row;
     Title := if String.eqb (Title task) "" then Title row else Title task;
     Description := match Description task with
                    | Some d => Some d
                    | None => Description row
                    end;
     Status := if String.eqb (Status task) "" then Status row
               else Status task;
     UserID := if N.eqb (UserID task) uuid.Nil then UserID row
               else UserID task;
     CreatedAt := if IsZero (CreatedAt task) then CreatedAt row
                  else CreatedAt task;
     UpdatedAt := now |}.

(** [taskRepository.Update]; the struct comes back with its update time
    set. *)
Definition Update (now : Time) (task : Task) (db : DB)
  : result Task * DB :=
  match fault db with
  | Some e => (Err ("failed to update task: " +:+ e), db)
  | None =>
      let hit := where_id_user (ID task) (UserID task) in
      let matched := List.filter hit (tasks db) in
      let rows' := map (fun r => if hit r then assign now task r else r)
                       (tasks db) in
      if forallb (fun r => row_ok (assign now task r)) matched then
        if Nat.eqb (length matched) 0
        then (Err "task not found", db)
        else (Ok (with_UpdatedAt task now), with_tasks db rows')
      else (Err "failed to update task: constraint violation", db)
  end.

(** [taskRepository.Delete]. *)
Definition Delete (id userID : UUID) (db : DB) : result unit * DB :=
  match fault db with
  | Some e => (Err ("failed to delete task: " +:+ e), db)
  | None =>
      let hit := where_id_user id userID in
      if Nat.eqb (length (List.filter hit (tasks db))) 0
      then (Err "task not found", db)
      else (Ok tt, with_tasks db (List.filter (fun r => negb (hit r)) (tasks db)))
  end.

End repositories.

(** ** Package services *)

Module services.

Import models repositories.
Import response.

(** A service call returns a payload or a [*response.CustomError]. *)
Inductive reply (A : Type) : Type :=
  | Success (a : A)
  | Failure (e : CustomError).
Arguments Success {A} a.
Arguments Failure {A} e.

(** The interface [TaskService], over the state [S] an implementation
    works on.  [uuid.New] and [time.Now] are read by the calls that reach
    the store with a write; their values are the first arguments. *)
Class TaskService (S : Type) := {
  CreateTask : UUID -> Time -> UUID -> params.CreateTaskRequest.t -> S ->
               reply params.TaskResponse.t * S;
  GetTask : UUID -> UUID -> S -> reply params.TaskResponse.t * S;
  GetTasks : UUID -> string -> Z -> Z -> S ->
             reply params.TasksResponse.t * S;
  UpdateTask : Time -> UUID -> UUID -> params.UpdateTaskRequest.t -> S ->
               reply params.TaskResponse.t * S;
  DeleteTask : UUID -> UUID -> S -> reply unit * S
}.

(** [int(math.Ceil(float64(total) / float64(limit)))], for a positive
    [limit] and a [total] that a float64 holds exactly. *)
Definition total_pages (total limit : Z) : Z := (total + limit - 1) / limit.

(** The fields of the task that a request updates, as both services
    write them; [None] is the invalid status. *)
Definition apply_request (req : params.UpdateTaskRequest.t) (task : Task)
  : option Task :=
  let task1 := match params.UpdateTaskRequest.Title req with
               | Some x => with_Title task x
               | None => task
               end in
  let task2 := match params.UpdateTaskRequest.Description req with
               | Some x => with_Description task1 (Some x)
               | None => task1
               end in
  match params.UpdateTaskRequest.Status req with
  | Some st => if enum.IsValid st then Some (with_Status task2 st) else None
  | None => Some task2
  end.

Definition invalid_status (req : params.UpdateTaskRequest.t) : string :=
  "invalid status: " +:+ default "" (params.UpdateTaskRequest.Status req).

Definition list_response (found : list Task) (total page limit : Z)
  : params.TasksResponse.t :=
  {| params.TasksResponse.Tasks := map to_response found;
     params.TasksResponse.Total := total;
     params.TasksResponse.Page := page;
     params.TasksResponse.Limit := limit;
     params.TasksResponse.TotalPages := total_pages total limit |}.

(** The service of task_service.go: the store alone. *)
Module store_only.

Definition CreateTask (fresh : UUID) (now : Time) (userID : UUID)
    (req : params.CreateTaskRequest.t) (db : DB)
  : reply params.TaskResponse.t * DB :=
  let task := {| ID := uuid.Nil;
                 Title := params.CreateTaskRequest.Title req;
                 Description := params.CreateTaskRequest.Description req;
                 Status := enum.StatusToDo;
                 UserID := userID;
                 CreatedAt := zeroTime;
                 UpdatedAt := zeroTime |} in
  match repositories.Create fresh now task db with
  | (Err _, db') => (Failure (RepositoryError "failed to create task"), db')
  | (Ok task', db') => (Success (to_response task'), db')
  end.

Definition GetTask (taskID userID : UUID) (db : DB)
  : reply params.TaskResponse.t * DB :=
  match repositories.GetByID taskID userID db with
  | Err _ => (Failure (RepositoryError "failed to get task"), db)
  | Ok task => (Success (to_response task), db)
  end.

Definition GetTasks (userID : UUID) (status : string) (page limit : Z)
    (db : DB) : reply params.TasksResponse.t * DB :=
  let page := if page <? 1 then 1 else page in
  let limit := if (limit <? 1) || (100 <? limit) then 10 else limit in
  if negb (String.eqb status "") && negb (enum.IsValid status)
  then (Failure (BadRequestError ("invalid status: " +:+ status)), db)
  else
    match repositories.GetAll userID status page limit db with
    | Err _ => (Failure (RepositoryError "failed to get tasks"), db)
    | Ok (found, total) =>
        (Success (list_response found total page limit), db)
    end.

Definition UpdateTask (now : Time) (taskID userID : UUID)
    (req : params.UpdateTaskRequest.t) (db : DB)
  : reply params.TaskResponse.t * DB :=
  match repositories.GetByID taskID userID db with
  | Err _ =>
      (Failure (RepositoryError "failed to get task for update"), db)
  | Ok task =>
      match apply_request req task with
      | None => (Failure (BadRequestError (invalid_status req)), db)
      | Some task' =>
          match repositories.Update now task' db with
          | (Err _, db') =>
              (Failure (RepositoryError "failed to update task"), db')
          | (Ok task'', db') => (Success (to_response task''), db')
          end
      end
  end.

Definition DeleteTask (taskID userID : UUID) (db : DB)
  : reply unit * DB :=
  match repositories.Delete taskID userID db with
  | (Err _, db') => (Failure (RepositoryError "failed to delete task"), db')
  | (Ok _, db') => (Success tt, db')
  end.

End store_only.

#[global] Instance taskService : TaskService DB := {
  CreateTask := store_only.CreateTask;
  GetTask := store_only.GetTask;
  GetTasks := store_only.GetTasks;
  UpdateTask := store_only.UpdateTask;
  DeleteTask := store_only.DeleteTask
}.

(** The service of the second unit of auth_service.go: the store behind
    the list cache.  The cache is the Redis keyspace, from key to the
    bytes [json.Marshal] produced; [V] is the type of those bytes and
    [Marshal]/[Unmarshal] are the two functions of encoding/json at
    [params.TasksResponse].  The model is of a Redis that answers every
    command, one call after the other: GET gives the entry or a miss (the
    code has one branch for a miss and for a failed GET), SET stores,
    SCAN with MATCH lists the matching keys and DEL removes (the code
    drops the errors of SET and DEL).  Entries leave the cache on their
    own after [cacheTTL]; an expired entry is an absent one. *)
Module cache_aware.
Section Codec.

Context {V : Type}.
Variable Marshal : params.TasksResponse.t -> option V.
Variable Unmarshal : V -> option params.TasksResponse.t.

Record State := { db : DB; cache : gmap string V }.

Definition cacheKeyTasks (userID : UUID) (status : string)
    (page limit : Z) : string :=
  "tasks:" +:+ uuid.to_string userID +:+ ":" +:+ status +:+ ":"
    +:+ strconv.Itoa page +:+ ":" +:+ strconv.Itoa limit.

(** The text before the final [*] of the pattern ["tasks:%s:*"]; a UUID
    string has no character that is special in a pattern, so the keys
    that SCAN ... MATCH returns are the keys that start with it. *)
Definition pattern_prefix (userID : UUID) : string :=
  "tasks:" +:+ uuid.to_string userID +:+ ":".

Definition invalidateUserTasksCache (userID : UUID)
    (c : gmap string V) : gmap string V :=
  filter (fun kv => strings.HasPrefix kv.1 (pattern_prefix userID) = false) c.

Definition CreateTask (fresh : UUID) (now : Time) (userID : UUID)
    (req : params.CreateTaskRequest.t) (st : State)
  : reply params.TaskResponse.t * State :=
  let task := {| ID := uuid.Nil;
                 Title := params.CreateTaskRequest.Title req;
                 Description := params.CreateTaskRequest.Description req;
                 Status := enum.StatusToDo;
                 UserID := userID;
                 CreatedAt := zeroTime;
                 UpdatedAt := zeroTime |} in
  match repositories.Create fresh now task (db st) with
  | (Err _, db') =>
      (Failure (RepositoryError "failed to create task"),
       {| db := db'; cache := cache st |})
  | (Ok task', db') =>
      (Success (to_response task'),
       {| db := db'; cache := invalidateUserTasksCache userID (cache st) |})
  end.

Definition GetTask (taskID userID : UUID) (st : State)
  : reply params.TaskResponse.t * State :=
  match repositories.GetByID taskID userID (db st) with
  | Err _ => (Failure (RepositoryError "failed to get task"), st)
  | Ok task => (Success (to_response task), st)
  end.

(** The part of [GetTasks] after a cache miss, up to the response. *)
Definition from_store (userID : UUID) (status : string) (page limit : Z)
    (d : DB) : reply params.TasksResponse.t :=
  match repositories.GetAll userID status page limit d with
  | Err _ => Failure (RepositoryError "failed to get tasks")
  | Ok (found, total) => Success (list_response found total page limit)
  end.

Definition GetTasks (userID : UUID) (status : string) (page limit : Z)
    (st : State) : reply params.TasksResponse.t * State :=
  if negb (String.eqb status "") && negb (enum.IsValid status)
  then (Failure (BadRequestError ("invalid status: " +:+ status)), st)
  else
    let key := cacheKeyTasks userID status page limit in
    match cache st !! key ≫= Unmarshal with
    | Some cached => (Success cached, st)
    | None =>
        match from_store userID status page limit (db st) with
        | Failure e => (Failure e, st)
        | Success response =>
            let cache' := match Marshal response with
                          | Some data => <[key := data]> (cache st)
                          | None => cache st
                          end in
            (Success response, {| db := db st; cache := cache' |})
        end
    end.

Definition UpdateTask (now : Time) (taskID userID : UUID)
    (req : params.UpdateTaskRequest.t) (st : State)
  : reply params.TaskResponse.t * State :=
  match repositories.GetByID taskID userID (db st) with
  | Err _ =>
      (Failure (RepositoryError "failed to get task for update"), st)
  | Ok task =>
      match apply_request req task with
      | None => (Failure (BadRequestError (invalid_status req)), st)
      | Some task' =>
          match repositories.Update now task' (db st) with
          | (Err _, db') =>
              (Failure (RepositoryError "failed to update task"),
               {| db := db'; cache := cache st |})
          | (Ok task'', db') =>
              (Success (to_response task''),
               {| db := db';
                  cache := invalidateUserTasksCache userID (cache st) |})
          end
      end
  end.

Definition DeleteTask (taskID userID : UUID) (st : State)
  : reply unit * State :=
  match repositories.Delete taskID userID (db st) with
  | (Err _, db') =>
      (Failure (RepositoryError "failed to delete task"),
       {| db := db'; cache := cache st |})
  | (Ok _, db') =>
      (Success tt,
       {| db := db'; cache := invalidateUserTasksCache userID (cache st) |})
  end.

(** The three writes of the service, for statements about all of them. *)
Inductive write : Type :=
  | WCreate (fresh : UUID) (now : Time) (req : params.CreateTaskRequest.t)
  | WUpdate (now : Time) (taskID : UUID) (req : params.UpdateTaskRequest.t)
  | WDelete (taskID : UUID).

Definition succeeded {A} (r : reply A) : bool :=
  match r with Success _ => true | Failure _ => false end.

Definition run_write (userID : UUID) (w : write) (st : State)
  : bool * State :=
  match w with
  | WCreate fresh now req =>
      let '(r, st') := CreateTask fresh now userID req st in
      (succeeded r, st')
  | WUpdate now taskID req =>
      let '(r, st') := UpdateTask now taskID userID req st in
      (succeeded r, st')
  | WDelete taskID =>
      let '(r, st') := DeleteTask taskID userID st in
      (succeeded r, st')
  end.

End Codec.
End cache_aware.


End services.

(** ** Package handlers *)

Module gin.

(** A value kept in the request context ([c.Set], [c.Get]). *)
Inductive any : Type :=
  | UUIDValue (u : UUID)
  | OtherValue.

(** A member of the JSON object in a request body, as the decoder of a
    string or [*string] field meets it: not there, [null], a string, or a
    value of another JSON type. *)
Inductive member : Type :=
  | Absent
  | JNull
  | JString (s : string)
  | JOther.

(** The members of a body that the task requests name.  Every other
    member is skipped by the decoder. *)
Record Object := {
  title : member;
  description : member;
  status : member
}.

Inductive Data : Type :=
  | DataTask (t : params.TaskResponse.t)
  | DataTasks (t : params.TasksResponse.t)
  | DataNil.

(** What a handler writes: a [gin.H] literal (keys [error], [message],
    [errors]), a [*response.CustomError], or a success envelope. *)
Inductive Payload : Type :=
  | H (error : option string) (message : string)
      (errors : gmap string string)
  | Custom (e : response.CustomError)
  | Created (data : Data)
  | Envelope (message : string) (data : Data).

Record Response := { Code : Z; Body : Payload }.

End gin.

Module handlers.

Import gin.
Import services.

(** Decoding a member into a [string] field and into a [*string] field;
    [None] is the error of [ShouldBindJSON]. *)
Definition bind_string (m : member) : option string :=
  match m with
  | Absent | JNull => Some ""
  | JString x => Some x
  | JOther => None
  end.

Definition bind_pointer (m : member) : option (option string) :=
  match m with
  | Absent | JNull => Some None
  | JString x => Some (Some x)
  | JOther => None
  end.

(** [c.ShouldBindJSON(&req)] for the two request types; a body that is not
    a JSON object is [None]. *)
Definition bindCreate (body : option Object)
  : option params.CreateTaskRequest.t :=
  o ← body;
  t ← bind_string (title o);
  d ← bind_pointer (description o);
  Some {| params.CreateTaskRequest.Title := t;
          params.CreateTaskRequest.Description := d |}.

Definition bindUpdate (body : option Object)
  : option params.UpdateTaskRequest.t :=
  o ← body;
  t ← bind_pointer (title o);
  d ← bind_pointer (description o);
  st ← bind_pointer (status o);
  Some {| params.UpdateTaskRequest.Title := t;
          params.UpdateTaskRequest.Description := d;
          params.UpdateTaskRequest.Status := st |}.

Definition msg_required : string := "This field is required".
Definition msg_max : string := "This field exceeds maximum length of 255".
Definition msg_oneof : string :=
  "This field must be one of: TO_DO IN_PROGRESS DONE".

(** [oneof=TO_DO IN_PROGRESS DONE]. *)
Definition oneof (st : string) : bool :=
  bool_decide (st ∈ ["TO_DO"; "IN_PROGRESS"; "DONE"]).

(** [h.validator.Struct(&req)] with the message of each failed field:
    [required,max=255] on the title of a create request; on an update
    request [omitempty,max=255] on the title and [omitempty,oneof=...] on
    the status, where a pointer that is set is never empty. *)
Definition validateCreate (req : params.CreateTaskRequest.t)
  : gmap string string :=
  let t := params.CreateTaskRequest.Title req in
  if String.eqb t "" then {[ "Title" := msg_required ]}
  else if 255 <? RuneCount t then {[ "Title" := msg_max ]}
  else ∅.

Definition validateUpdate (req : params.UpdateTaskRequest.t)
  : gmap string string :=
  let title_errs : gmap string string :=
    match params.UpdateTaskRequest.Title req with
    | Some t => if 255 <? RuneCount t then {[ "Title" := msg_max ]} else ∅
    | None => ∅
    end in
  let status_errs : gmap string string :=
    match params.UpdateTaskRequest.Status req with
    | Some st => if oneof st then ∅ else {[ "Status" := msg_oneof ]}
    | None => ∅
    end in
  title_errs ∪ status_errs.

Definition no_user : Response :=
  {| Code := 401;
     Body := H (Some "unauthorized") "User ID not found in context" ∅ |}.
Definition bad_user : Response :=
  {| Code := 401;
     Body := H (Some "unauthorized") "Invalid user ID format" ∅ |}.
Definition bad_task_id : Response :=
  {| Code := 400;
     Body := H (Some "invalid_task_id") "Invalid task ID format" ∅ |}.
Definition validation_failed (details : gmap string string) : Response :=
  {| Code := 400; Body := H None "Validation failed" details |}.
Definition custom (e : response.CustomError) : Response :=
  {| Code := response.StatusCode e; Body := Custom e |}.

Section Handlers.

Context {S : Type} {taskService : TaskService S}.

Definition CreateTask (fresh : UUID) (now : Time)
    (user_id : option any) (body : option Object) (st : S)
  : Response * S :=
  match user_id with
  | None => (no_user, st)
  | Some OtherValue => (bad_user, st)
  | Some (UUIDValue userUUID) =>
      match bindCreate body with
      | None => ({| Code := 400; Body := H None "Invalid JSON format" ∅ |}, st)
      | Some req =>
          let details := validateCreate req in
          if bool_decide (details = ∅) then
            match services.CreateTask fresh now userUUID req st with
            | (Failure custErr, st') => (custom custErr, st')
            | (Success task, st') =>
                ({| Code := response.StatusCreated;
                    Body := Created (DataTask task) |}, st')
            end
          else (validation_failed details, st)
      end
  end.

(** The query parameters are [None] when the URL does not have them. *)
Definition GetTasks (user_id : option any)
    (q_status q_page q_limit : option string) (st : S) : Response * S :=
  match user_id with
  | None => (no_user, st)
  | Some OtherValue => (bad_user, st)
  | Some (UUIDValue userUUID) =>
      let status := default "" q_status in
      let page := (strconv.Atoi (default "1" q_page)).1 in
      let limit := (strconv.Atoi (default "10" q_limit)).1 in
      let page := if page <? 1 then 1 else page in
      let limit := if (limit <? 1) || (100 <? limit) then 10 else limit in
      match services.GetTasks userUUID status page limit st with
      | (Failure custErr, st') => (custom custErr, st')
      | (Success tasks, st') =>
          ({| Code := 200;
              Body := Envelope "Success get tasks" (DataTasks tasks) |}, st')
      end
  end.

Definition GetTask (user_id : option any) (taskIDStr : string) (st : S)
  : Response * S :=
  match user_id with
  | None => (no_user, st)
  | Some OtherValue => (bad_user, st)
  | Some (UUIDValue userUUID) =>
      match uuid.Parse taskIDStr with
      | None => (bad_task_id, st)
      | Some taskID =>
          match services.GetTask taskID userUUID st with
          | (Failure custErr, st') => (custom custErr, st')
          | (Success task, st') =>
              ({| Code := 200;
                  Body := Envelope "Success get task" (DataTask task) |}, st')
          end
      end
  end.

Definition UpdateTask (now : Time) (user_id : option any)
    (taskIDStr : string) (body : option Object) (st : S)
  : Response * S :=
  match user_id with
  | None => (no_user, st)
  | Some OtherValue => (bad_user, st)
  | Some (UUIDValue userUUID) =>
      match uuid.Parse taskIDStr with
      | None => (bad_task_id, st)
      | Some taskID =>
          match bindUpdate body with
          | None =>
              ({| Code := 400;
                  Body := H (Some "invalid_request") "Invalid JSON format" ∅ |},
               st)
          | Some req =>
              let details := validateUpdate req in
              if bool_decide (details = ∅) then
                match services.UpdateTask now taskID userUUID req st with
                | (Failure custErr, st') => (custom custErr, st')
                | (Success task, st') =>
                    ({| Code := 200;
                        Body := Envelope "Success update task" (DataTask task) |},
                     st')
                end
              else (validation_failed details, st)
          end
      end
  end.

Definition DeleteTask (user_id : option any) (taskIDStr : string)
    (st : S) : Response * S :=
  match user_id with
  | None => (no_user, st)
  | Some OtherValue => (bad_user, st)
  | Some (UUIDValue userUUID) =>
      match uuid.Parse taskIDStr with
      | None => (bad_task_id, st)
      | Some taskID =>
          match services.DeleteTask taskID userUUID st with
          | (Failure custErr, st') => (custom custErr, st')
          | (Success _, st') =>
              ({| Code := 200;
                  Body := Envelope "Success delete task" DataNil |}, st')
          end
      end
  end.

End Handlers.

End handlers.

(** ** Package config *)

Module config.

Record Config := {
  AppEnv : string;
  AppPort : string;
  LogLevel : string;
  LogFormat : string;
  DBHost : string;
  DBPort : string;
  DBUser : string;
  DBPassword : string;
  DBName : string;
  DBSSLMode : string;
  RedisHost : string;
  RedisPort : string;
  RedisPassword : string;
  JWTSecret : string;
  BcryptCost : Z;
  RateLimitRequests : Z;
  RateLimitWindow : Z
}.

(** The process environment; [os.Getenv] gives [""] for an unset name. *)
Definition Getenv (env : gmap string string) (key : string) : string :=
  default "" (env !! key).

(** [godotenv.Load]: the pairs of the .env file, when there is one, are
    set for the names the environment does not have. *)
Definition dotenv (file : option (gmap string string))
    (env : gmap string string) : gmap string string :=
  match file with
  | Some pairs => env ∪ pairs
  | None => env
  end.

Definition getEnv (env : gmap string string) (key defaultVal : string)
  : string :=
  let value := Getenv env key in
  if String.eqb value "" then defaultVal else value.

Definition getEnvAsInt (env : gmap string string) (key : string)
    (defaultVal : Z) : Z :=
  let valueStr := getEnv env key "" in
  match strconv.Atoi valueStr with
  | (value, true) => value
  | (_, false) => defaultVal
  end.

(** [config.Load].  The composite literal names fifteen of the seventeen
    fields; [JWTSecret] and [BcryptCost] keep the zero value. *)
Definition Load (file : option (gmap string string))
    (env0 : gmap string string) : Config :=
  let env := dotenv file env0 in
  {| AppEnv := getEnv env "APP_ENV" "development";
     AppPort := getEnv env "APP_PORT" "3000";
     LogLevel := getEnv env "LOG_LEVEL" "info";
     LogFormat := getEnv env "LOG_FORMAT" "text";
     DBHost := getEnv env "DB_HOST" "localhost";
     DBPort := getEnv env "DB_PORT" "5432";
     DBUser := getEnv env "DB_USER" "corenglish";
     DBPassword := getEnv env "DB_PASSWORD" "corenglish";
     DBName := getEnv env "DB_NAME" "corenglish";
     DBSSLMode := getEnv env "DB_SSL_MODE" "disable";
     RedisHost := getEnv env "REDIS_HOST" "localhost";
     RedisPort := getEnv env "REDIS_PORT" "6379";
     RedisPassword := getEnv env "REDIS_PASSWORD" "";
     JWTSecret := "";
     BcryptCost := 0;
     RateLimitRequests := getEnvAsInt env "RATE_LIMIT_REQUESTS" 100;
     RateLimitWindow := getEnvAsInt env "RATE_LIMIT_WINDOW" 60 |}.

(** The cost [authService.Register] hands to
    [bcrypt.GenerateFromPassword]. *)
Definition register_cost (cfg : Config) : Z := BcryptCost cfg.

(** The secret [main] hands to [middleware.AuthMiddleware]. *)
Definition middleware_secret (cfg : Config) : string := JWTSecret cfg.

End config.

(** ** Package token (pkg/token) *)

Module token.

(** The claims of a bearer token: [{auth_id, exp}]. *)
Record Payload := { AuthId : string; Exp : Z }.

End token.

(** ** Package middleware *)

Module middleware.

Import gin.

(** What a middleware does with the request: it passes it on ([c.Next]),
    with the response headers and the context values it has set, or it
    answers itself and aborts the chain. *)
Inductive outcome : Type :=
  | Next (headers : gmap string string) (keys : gmap string any)
  | Abort (resp : Response) (headers : gmap string string).

Section Auth.

(** [token.ValidateToken]: package pkg/token is not among the sources.
    The call takes the token string alone and gives the payload or an
    error. *)
Variable ValidateToken : string -> result token.Payload.

Definition unauthorized (info message : option string) : outcome :=
  let resp := response.UnauthorizedErrorWithAdditionalInfo info message in
  Abort {| Code := response.StatusCode resp; Body := Custom resp |} ∅.

(** [AuthMiddleware(jwtSecret, logger)] on a request whose Authorization
    header is [authHeader] ([""] when the request has none). *)
Definition AuthMiddleware (jwtSecret : string) (authHeader : string)
  : outcome :=
  if String.eqb authHeader "" then
    unauthorized None (Some "Authorization header is required")
  else
    let bearerToken := strings.Split authHeader "Bearer " in
    if negb (Nat.eqb (length bearerToken) 2) then
      unauthorized None (Some "len token must be 2")
    else
      match ValidateToken (nth 1 bearerToken "") with
      | Err msg => unauthorized (Some msg) None
      | Ok payload =>
          match uuid.Parse (token.AuthId payload) with
          | None => unauthorized None (Some "Invalid user ID in token")
          | Some userID => Next ∅ {[ "user_id" := UUIDValue userID ]}
          end
      end.

End Auth.

(** The keys the limiter works on hold the integers INCR writes; [Redis]
    is that part of the keyspace.  A server that cannot be reached shows
    as a failed round trip: the GET, or the pipeline (which then applies
    nothing). *)
Abbreviation Redis := (gmap string Z).

Inductive round_trips : Type :=
  | AllOk
  | GetFails
  | ExecFails.

Definition Second : Z := 1000000000.

(** go-redis sends EXPIRE with whole seconds: 1 for a positive duration
    below a second, the quotient otherwise. *)
Definition formatSec (dur : Z) : Z :=
  if (0 <? dur) && (dur <? Second) then 1 else Z.quot dur Second.

(** INCR followed by EXPIRE on [key], whose value is [current] (0 when
    absent): a timeout that is not positive deletes the key. *)
Definition incr_expire (key : string) (current secs : Z) (r : Redis)
  : Redis :=
  if secs <=? 0 then delete key r else <[key := current + 1]> r.

Definition quota_message (cfg : config.Config) : string :=
  "Rate limit exceeded. Maximum "
    +:+ strconv.Itoa (config.RateLimitRequests cfg)
    +:+ " requests per " +:+ strconv.Itoa (config.RateLimitWindow cfg)
    +:+ " seconds".

(** [RateLimitMiddleware(redisClient, cfg)] on a request from [clientIP]
    at time [now]. *)
Definition RateLimitMiddleware (redisClient : option Redis)
    (cfg : config.Config) (clientIP : string) (now : Time)
    (net : round_trips) : outcome * option Redis :=
  match redisClient with
  | None => (Next ∅ ∅, None)
  | Some r =>
      let key := "rate_limit:" +:+ clientIP in
      match net with
      | GetFails => (Next ∅ ∅, Some r)
      | _ =>
          let current := default 0 (r !! key) in
          if config.RateLimitRequests cfg <=? current then
            (Abort {| Code := 429;
                      Body := H (Some "rate_limit_exceeded")
                                (quota_message cfg) ∅ |} ∅,
             Some r)
          else
            let window := wrap64 (config.RateLimitWindow cfg * Second) in
            match net with
            | ExecFails => (Next ∅ ∅, Some r)
            | _ =>
                let r' := incr_expire key current (formatSec window) r in
                let remaining :=
                  wrap64 (config.RateLimitRequests cfg - (current + 1)) in
                let remaining := if remaining <? 0 then 0 else remaining in
                let headers : gmap string string :=
                  <[ "X-RateLimit-Reset" :=
                       strconv.Itoa ((now + window) / Second) ]>
                  (<[ "X-RateLimit-Remaining" := strconv.Itoa remaining ]>
                   (<[ "X-RateLimit-Limit" :=
                         strconv.Itoa (config.RateLimitRequests cfg) ]> ∅)) in
                (Next headers ∅, Some r')
            end
      end
  end.


(** A response header as the client reads it. *)
Definition header (o : outcome) (name : string) : option string :=
  match o with
  | Next headers _ => headers !! name
  | Abort _ headers => headers !! name
  end.

End middleware.

(** ** Package main: the routes of the tasks and their middleware *)

Module router.

Import gin.

(** What a response carries besides its status: the headers that the
    code sets with [c.Header] (by the names the code gives them), and no
    body ([c.AbortWithStatus]) or the JSON value of the handler. *)
Record Reply := {
  Status : Z;
  Header : gmap string string;
  Content : option Payload
}.

(** One handler of a chain: it sets headers and context values and goes
    on, or it sets headers and ends the request with a status. *)
Inductive step : Type :=
  | Continue (headers : gmap string string) (keys : gmap string any)
  | Stop (status : Z) (content : option Payload)
      (headers : gmap string string).

Definition of_outcome (o : middleware.outcome) : step :=
  match o with
  | middleware.Next headers keys => Continue headers keys
  | middleware.Abort resp headers =>
      Stop (Code resp) (Some (Body resp)) headers
  end.

(** [middleware.CORSMiddleware]. *)
Definition cors_headers : gmap string string :=
  <[ "Access-Control-Allow-Credentials" := "true" ]>
  (<[ "Access-Control-Allow-Headers" :=
        "Origin, Content-Type, Content-Length, Accept-Encoding, X-CSRF-Token, Authorization" ]>
   (<[ "Access-Control-Allow-Methods" := "GET, POST, PATCH, DELETE, OPTIONS" ]>
    (<[ "Access-Control-Allow-Origin" := "*" ]> ∅))).

Definition CORSMiddleware (method : string) : step :=
  if String.eqb method "OPTIONS" then Stop 204 None cors_headers
  else Continue cors_headers ∅.

(** [middleware.SecurityHeadersMiddleware]. *)
Definition security_headers : gmap string string :=
  <[ "Referrer-Policy" := "strict-origin-when-cross-origin" ]>
  (<[ "Content-Security-Policy" := "default-src 'self'" ]>
   (<[ "Strict-Transport-Security" := "max-age=31536000; includeSubDomains" ]>
    (<[ "X-XSS-Protection" := "1; mode=block" ]>
     (<[ "X-Frame-Options" := "DENY" ]>
      (<[ "X-Content-Type-Options" := "nosniff" ]> ∅))))).

Definition SecurityHeadersMiddleware : step := Continue security_headers ∅.

(** The five routes of the group [/api/v1/tasks], each with what its
    handler reads of the request; [uuid.New] and [time.Now] as in the
    handlers. *)
Inductive endpoint : Type :=
  | PostTasks (fresh : UUID) (now : Time) (body : option Object)
  | GetTasks (q_status q_page q_limit : option string)
  | GetTaskByID (id : string)
  | PatchTaskByID (now : Time) (id : string) (body : option Object)
  | DeleteTaskByID (id : string).

(** A request for one of the five routes, or a request with the method
    OPTIONS: no route has this method, and the router runs the global
    handlers ahead of its answer for a missing route. *)
Inductive kind : Type :=
  | Options
  | Task (e : endpoint).

Definition Method (k : kind) : string :=
  match k with
  | Options => "OPTIONS"
  | Task (PostTasks _ _ _) => "POST"
  | Task (GetTasks _ _ _) => "GET"
  | Task (GetTaskByID _) => "GET"
  | Task (PatchTaskByID _ _ _) => "PATCH"
  | Task (DeleteTaskByID _) => "DELETE"
  end.

Record Request := {
  Kind : kind;
  ClientIP : string;
  Authorization : string
}.

(** What the requests work on: the Redis of the limiter ([None] when
    [ConnectRedis] gave no client) and the database. *)
Record World := {
  redis : option middleware.Redis;
  db : repositories.DB
}.

(** The handler of a route; [main] gives the handlers the service of
    task_service.go. *)
Definition handle (e : endpoint) (user_id : option any)
    (d : repositories.DB) : Response * repositories.DB :=
  match e with
  | PostTasks fresh now body => handlers.CreateTask fresh now user_id body d
  | GetTasks q_status q_page q_limit =>
      handlers.GetTasks user_id q_status q_page q_limit d
  | GetTaskByID id => handlers.GetTask user_id id d
  | PatchTaskByID now id body => handlers.UpdateTask now user_id id body d
  | DeleteTaskByID id => handlers.DeleteTask user_id id d
  end.

Section Serve.

Variable ValidateToken : string -> result token.Payload.

(** The chain of [main] on one request, at the time [now] and with the
    round trips to Redis going as [net] says: the global handlers
    LoggerMiddleware and RecoveryMiddleware (which set no header and, as
    no handler here panics, end no request), CORSMiddleware,
    SecurityHeadersMiddleware and RateLimitMiddleware, then
    AuthMiddleware of the group and the handler of the route.  A header
    that is set stays on the response, also when a later handler ends the
    request.  For the method OPTIONS the chain ends in CORSMiddleware; the
    router's own answer for a missing route (404, its body is not
    modelled) stands after the limiter and is never reached. *)
Definition serve_http (cfg : config.Config) (now : Time)
    (net : middleware.round_trips) (req : Request) (w : World)
  : Reply * World :=
  match CORSMiddleware (Method (Kind req)) with
  | Stop status content h1 =>
      ({| Status := status; Header := h1; Content := content |}, w)
  | Continue h1 _ =>
      match SecurityHeadersMiddleware with
      | Stop status content h2 =>
          ({| Status := status; Header := h2 ∪ h1; Content := content |}, w)
      | Continue h2 _ =>
          let '(o, redis') :=
            middleware.RateLimitMiddleware (redis w) cfg (ClientIP req) now net in
          let w' := {| redis := redis'; db := db w |} in
          match of_outcome o with
          | Stop status content h3 =>
              ({| Status := status; Header := h3 ∪ (h2 ∪ h1);
                  Content := content |}, w')
          | Continue h3 _ =>
              match Kind req with
              | Options =>
                  ({| Status := 404; Header := h3 ∪ (h2 ∪ h1);
                      Content := None |}, w')
              | Task e =>
                  match of_outcome
                          (middleware.AuthMiddleware ValidateToken
                             (config.JWTSecret cfg) (Authorization req)) with
                  | Stop status content h4 =>
                      ({| Status := status; Header := h4 ∪ (h3 ∪ (h2 ∪ h1));
                          Content := content |}, w')
                  | Continue h4 keys =>
                      let '(resp, d') := handle e (keys !! "user_id") (db w) in
                      ({| Status := Code resp;
                          Header := h4 ∪ (h3 ∪ (h2 ∪ h1));
                          Content := Some (Body resp) |},
                       {| redis := redis'; db := d' |})
                  end
              end
          end
      end
  end.

(** The user a request is made for: the one [AuthMiddleware] puts in the
    context, when it lets the request pass. *)
Definition authenticated (cfg : config.Config) (req : Request)
  : option UUID :=
  match middleware.AuthMiddleware ValidateToken (config.JWTSecret cfg)
          (Authorization req) with
  | middleware.Next _ keys =>
      match keys !! "user_id" with
      | Some (UUIDValue u) => Some u
      | _ => None
      end
  | middleware.Abort _ _ => None
  end.

End Serve.

(** [sep] occurs in [s]. *)
Fixpoint occurs (sep s : string) : bool :=
  match s with
  | EmptyString => false
  | String _ s' => String.prefix sep s || occurs sep s'
  end.

(** The character does not occur in the string. *)
Fixpoint free_of (c : ascii) (s : string) : bool :=
  match s with
  | EmptyString => true
  | String x s' => negb (Ascii.eqb x c) && free_of c s'
  end.

End router.

(** ** Accounts: the user model, the user repository and the auth service *)

Module auth.

Import response services.

(** [models.User]. *)
Record User := {
  ID : UUID;
  Username : string;
  Email : string;
  Password : string;
  CreatedAt : Time;
  UpdatedAt : Time
}.

(** [User.BeforeCreate]. *)
Definition BeforeCreate (fresh : UUID) (u : User) : User :=
  if N.eqb (ID u) uuid.Nil
  then {| ID := fresh; Username := Username u; Email := Email u;
          Password := Password u; CreatedAt := CreatedAt u;
          UpdatedAt := UpdatedAt u |}
  else u.

Definition stamp (now : Time) (u : User) : User :=
  {| ID := ID u; Username := Username u; Email := Email u;
     Password := Password u;
     CreatedAt := if IsZero (CreatedAt u) then now else CreatedAt u;
     UpdatedAt := if IsZero (UpdatedAt u) then now else UpdatedAt u |}.

Module RegisterRequest.
Record t := { Username : string; Email : string; Password : string }.
End RegisterRequest.

Module LoginRequest.
Record t := { Email : string; Password : string }.
End LoginRequest.

(** [params.AuthResponse], by the fields the service sets: [Token],
    [User.ID], [User.Username] and [User.Email]. *)
Module AuthResponse.
Record t := {
  Token : string;
  UserID : UUID;
  Username : string;
  Email : string
}.
End AuthResponse.

(** The users table, and the error of a database that fails. *)
Record UserDB := {
  rows : list User;
  fault : option string
}.

(** [First(&user)] under a condition: of the rows that meet it, the one
    with the least id. *)
Definition First (cond : User -> bool) (table : list User) : option User :=
  fold_right
    (fun r found =>
       if cond r then
         match found with
         | Some a => if (ID a <? ID r)%N then Some a else Some r
         | None => Some r
         end
       else found)
    None table.

Section Repository.

(** The users table is made by a migration that is not among the
    sources; [accepts] is what the table takes: whether a row may be
    inserted next to the rows that are there. *)
Variable accepts : User -> list User -> bool.

(** [userRepository.Create]. *)
Definition Create (fresh : UUID) (now : Time) (user : User) (db : UserDB)
  : result User * UserDB :=
  match fault db with
  | Some e => (Err ("failed to create user: " +:+ e), db)
  | None =>
      let user' := stamp now (BeforeCreate fresh user) in
      if accepts user' (rows db)
      then (Ok user', {| rows := (rows db ++ [user'])%list; fault := None |})
      else (Err "failed to create user: constraint violation", db)
  end.

Definition lookup (cond : User -> bool) (db : UserDB) : result User :=
  match fault db with
  | Some e => Err ("failed to get user: " +:+ e)
  | None =>
      match First cond (rows db) with
      | Some u => Ok u
      | None => Err "user not found"
      end
  end.

(** [userRepository.GetByEmail], [GetByID] and [GetByUsername]. *)
Definition GetByEmail (email : string) (db : UserDB) : result User :=
  lookup (fun u => String.eqb (Email u) email) db.

Definition GetByID (id : UUID) (db : UserDB) : result User :=
  lookup (fun u => N.eqb (ID u) id) db.

Definition GetByUsername (username : string) (db : UserDB) : result User :=
  lookup (fun u => String.eqb (Username u) username) db.

(** bcrypt and the token manager (package pkg/token is not among the
    sources): the hash of a password under a salt and a cost, whether a
    hash is one of a password, and the token for a user at an instant. *)
Variable GenerateFromPassword : N -> string -> Z -> result string.
Variable CompareHashAndPassword : string -> string -> bool.
Variable GenerateToken : Time -> UUID -> result string.

Definition auth_response (token : string) (user : User) : AuthResponse.t :=
  {| AuthResponse.Token := token;
     AuthResponse.UserID := ID user;
     AuthResponse.Username := Username user;
     AuthResponse.Email := Email user |}.

(** [authService.Register]; [salt] is the salt bcrypt draws. *)
Definition Register (cfg : config.Config) (salt : N) (fresh : UUID)
    (now : Time) (req : RegisterRequest.t) (db : UserDB)
  : reply AuthResponse.t * UserDB :=
  match GetByEmail (RegisterRequest.Email req) db with
  | Ok _ =>
      (Failure (BadRequestError "user with this email already exists"), db)
  | Err _ =>
      match GetByUsername (RegisterRequest.Username req) db with
      | Ok _ => (Failure (BadRequestError "username is already taken"), db)
      | Err _ =>
          match GenerateFromPassword salt (RegisterRequest.Password req)
                  (config.BcryptCost cfg) with
          | Err _ => (Failure (GeneralError "failed to hash password"), db)
          | Ok hashedPassword =>
              let user := {| ID := uuid.Nil;
                             Username := RegisterRequest.Username req;
                             Email := RegisterRequest.Email req;
                             Password := hashedPassword;
                             CreatedAt := zeroTime;
                             UpdatedAt := zeroTime |} in
              match Create fresh now user db with
              | (Err _, db') =>
                  (Failure (RepositoryError "failed to create user"), db')
              | (Ok user', db') =>
                  match GenerateToken now (ID user') with
                  | Err _ =>
                      (Failure (GeneralError "failed to generate token"), db')
                  | Ok token => (Success (auth_response token user'), db')
                  end
              end
          end
      end
  end.

(** [authService.Login]. *)
Definition Login (now : Time) (req : LoginRequest.t) (db : UserDB)
  : reply AuthResponse.t :=
  match GetByEmail (LoginRequest.Email req) db with
  | Err _ => Failure (BadRequestError "invalid email or password")
  | Ok user =>
      if CompareHashAndPassword (Password user) (LoginRequest.Password req)
      then
        match GenerateToken now (ID user) with
        | Err _ => Failure (GeneralError "failed to generate token")
        | Ok token => Success (auth_response token user)
        end
      else Failure (BadRequestError "invalid email or password")
  end.

End Repository.


(** What the theorems ask of bcrypt: a hash it made of a password is one
    it accepts for that password. *)
Definition bcrypt_accepts_its_hashes
    (GenerateFromPassword : N -> string -> Z -> result string)
    (CompareHashAndPassword : string -> string -> bool) : Prop :=
  forall salt password cost hash,
    GenerateFromPassword salt password cost = Ok hash ->
    CompareHashAndPassword hash password = true.

(** Sample data: a table that takes every row, a hash that prefixes the
    password, and token managers that work and that fail. *)
Definition takes_all (u : User) (table : list User) : bool := true.
Definition toy_hash (salt : N) (password : string) (cost : Z)
  : result string := Ok ("h:" +:+ password).
Definition toy_compare (hash password : string) : bool :=
  String.eqb hash ("h:" +:+ password).
Definition toy_token (now : Time) (u : UUID) : result string :=
  Ok (uuid.to_string u).
Definition no_token (now : Time) (u : UUID) : result string :=
  Err "no key".
Definition no_users : UserDB := {| rows := []; fault := None |}.
Definition carol : RegisterRequest.t :=
  {| RegisterRequest.Username := "carol";
     RegisterRequest.Email := "carol@example.org";
     RegisterRequest.Password := "secret1" |}.

End auth.

(** * Properties *)

Import models repositories services gin.

(** The rows of the table that do not belong to [V], in table order. *)
Definition rows_of_others (V : UUID) (db : DB) : list Task :=
  List.filter (fun t => negb (N.eqb (UserID t) V)) (tasks db).

(** The order of a list response: of two returned rows, the one that comes
    first was not created before the other. *)
Definition newest_first (found : list Task) : Prop :=
  forall i j a b, (i < j)%nat -> found !! i = Some a -> found !! j = Some b ->
    CreatedAt b <= CreatedAt a.

(** Rows with the same creation time come in the order [R] of their ids. *)
Definition ties_by_id (R : N -> N -> Prop) (found : list Task) : Prop :=
  forall i j a b, (i < j)%nat -> found !! i = Some a -> found !! j = Some b ->
    CreatedAt a = CreatedAt b -> R (ID a) (ID b).

(** Sample data: two users, and rows created at the same instant. *)
Definition alice : UUID := 10%N.
Definition bob : UUID := 11%N.

Definition row (id : UUID) (owner : UUID) (created : Time) : Task :=
  {| ID := id; Title := "A"; Description := Some "d"; Status := "TO_DO";
     UserID := owner; CreatedAt := created; UpdatedAt := created |}.
Arguments row id%_N owner%_N created%_Z.

Definition tie_db : DB :=
  {| users := {[alice; bob]};
     tasks := [row 2 alice 1000; row 1 alice 1000; row 3 alice 1000];
     fault := None |}.

(** The same three rows, held by the table in another order. *)
Definition tie_db_by_id : DB :=
  {| users := {[alice; bob]};
     tasks := [row 1 alice 1000; row 2 alice 1000; row 3 alice 1000];
     fault := None |}.

(** No row of the table has the id [id] and the owner [u]: the id is not
    there, or the task is another user's. *)
Definition no_row (id u : UUID) (db : DB) : Prop :=
  forall t, t ∈ tasks db -> ID t = id -> UserID t <> u.

(** Alice's task 77, and its id as it appears in a URL. *)
Definition cross_db : DB :=
  {| users := {[alice; bob]}; tasks := [row 77 alice 1000]; fault := None |}.

Definition id77 : string := "00000000-0000-0000-0000-00000000004d".

(** The write requests of the API and the handler that serves each. *)
Inductive write_request : Type :=
  | PostTask (fresh : UUID) (now : Time) (body : option Object)
  | PatchTask (now : Time) (taskIDStr : string) (body : option Object)
  | DeleteTaskReq (taskIDStr : string).

Definition serve (user_id : option any) (r : write_request) (db : DB)
  : Response * DB :=
  match r with
  | PostTask fresh now body => handlers.CreateTask fresh now user_id body db
  | PatchTask now taskIDStr body =>
      handlers.UpdateTask now user_id taskIDStr body db
  | DeleteTaskReq taskIDStr => handlers.DeleteTask user_id taskIDStr db
  end.

(** Every stored status is a value of the enumeration. *)
Definition valid_statuses (db : DB) : Prop :=
  Forall (fun t => enum.IsValid (Status t) = true) (tasks db).

(** The body has a [status] member that is not a value of the enumeration:
    a string outside it, or a value that is not a string. *)
Definition carries_invalid_status (o : Object) : Prop :=
  match status o with
  | JString st => enum.IsValid st = false
  | JOther => True
  | Absent | JNull => False
  end.

(** The member is not in the body, or it is [null]. *)
Definition unset (m : member) : Prop := m = Absent \/ m = JNull.

Definition empty_db : DB :=
  {| users := {[alice; bob]}; tasks := []; fault := None |}.

(** The primary key: no two rows have the same id. *)
Definition unique_ids (db : DB) : Prop := NoDup (map ID (tasks db)).

(** The columns of a row that an update request has no field for. *)
Definition fixed_columns (r : Task) : UUID * UUID * Time :=
  (ID r, UserID r, CreatedAt r).



(** The configuration of the scenario: 3 requests per 60 seconds. *)
Definition cfg_3_per_60 : config.Config :=
  config.Load None
    (<["RATE_LIMIT_REQUESTS" := "3"]> (<["RATE_LIMIT_WINDOW" := "60"]> ∅)).







(** Every entry of the cache that decodes has, in its [page] and [limit]
    fields, the page and the limit of its key. *)
Definition coherent {V : Type} (Unmarshal : V -> option params.TasksResponse.t)
    (c : gmap string V) : Prop :=
  forall u status page limit v r,
    c !! cache_aware.cacheKeyTasks u status page limit = Some v ->
    Unmarshal v = Some r ->
    params.TasksResponse.Page r = page /\ params.TasksResponse.Limit r = limit.



(** A cache that holds values as they are, and a state of the service with
    the cache after Alice has listed her tasks once. *)
Definition plain_state : @cache_aware.State params.TasksResponse.t :=
  {| cache_aware.db := cross_db; cache_aware.cache := ∅ |}.

Definition listed_state : @cache_aware.State params.TasksResponse.t :=
  (cache_aware.GetTasks Some Some alice "" 1 10 plain_state).2.

(** * Further properties *)

(** Every stored title is set and has at most 255 characters. *)
Definition stored_titles_ok (db : DB) : Prop :=
  Forall (fun t => Title t <> "" /\ RuneCount (Title t) <= 255) (tasks db).

(** The rows of a user under a status filter, in the order of the list
    query, before paging. *)
Definition listing (u : UUID) (status : string) (db : DB) : list Task :=
  order_by_created_desc
    (List.filter (where_user_status u status) (tasks db)).

(** The rows of page [p] of the list query. *)
Definition page_rows (u : UUID) (status : string) (limit : Z) (db : DB)
    (p : Z) : list Task :=
  match GetAll u status p limit db with
  | Ok (found, _) => found
  | Err _ => []
  end.


(** The status code of a response says success. *)
Definition is_2xx (resp : Response) : bool :=
  (200 <=? Code resp) && (Code resp <? 300).



(** What the digit loop makes of a decimal numeral, from an accumulator
    that is a natural number. *)
Definition numeral_from (d : Decimal.uint) (n : N) : N :=
  match n with
  | N0 => N.of_uint d
  | Npos p => Npos (Pos.of_uint_acc d p)
  end.

(** * Verification *)

(** ** Configuration *)

(** The two security settings never depend on the environment. *)
Lemma Load_security_settings (file : option (gmap string string))
    (env : gmap string string) :
  config.JWTSecret (config.Load file env) = ""
  /\ config.BcryptCost (config.Load file env) = 0.
Proof. split; reflexivity. Qed.

(** A setting that [Load] does read follows the environment. *)
Lemma Load_reads_APP_PORT (env : gmap string string) (port : string) :
  port <> "" ->
  config.AppPort (config.Load None (<["APP_PORT" := port]> env)) = port.
Proof.
  intros Hport. cbn. unfold config.getEnv, config.Getenv.
  rewrite lookup_insert_eq. cbn.
  destruct (String.eqb_spec port ""); congruence.
Qed.

(** C9: with JWT_SECRET and BCRYPT_COST set in the environment, the loaded
    configuration still has the empty secret and the cost 0, and these are
    the values the middleware and the registration receive; the rate-limit
    settings of the same environment are read. *)
Theorem Load_ignores_JWT_SECRET_and_BCRYPT_COST :
  let env : gmap string string :=
    <["JWT_SECRET" := "s3cret"]>
      (<["BCRYPT_COST" := "12"]> (<["RATE_LIMIT_REQUESTS" := "3"]> ∅)) in
  let cfg := config.Load None env in
  config.Getenv env "JWT_SECRET" = "s3cret"
  /\ config.Getenv env "BCRYPT_COST" = "12"
  /\ config.middleware_secret cfg = ""
  /\ config.register_cost cfg = 0
  /\ config.RateLimitRequests cfg = 3.
Proof. cbv zeta. repeat split; vm_compute; reflexivity. Qed.

(** ** Authentication middleware *)

(** C10: the outcome of the authentication middleware does not depend on
    its [jwtSecret] argument: for the same request, any two secrets give
    the same outcome. *)
Theorem AuthMiddleware_independent_of_jwtSecret
    (ValidateToken : string -> result token.Payload)
    (secret1 secret2 authHeader : string) :
  middleware.AuthMiddleware ValidateToken secret1 authHeader
  = middleware.AuthMiddleware ValidateToken secret2 authHeader.
Proof. reflexivity. Qed.

(** ** The task store *)

Lemma where_id_user_owner (id userID : UUID) (t : Task) :
  where_id_user id userID t = true -> ID t = id /\ UserID t = userID.
Proof.
  unfold where_id_user. intros H.
  apply andb_true_iff in H as [H1 H2].
  apply N.eqb_eq in H1, H2. auto.
Qed.

Lemma where_user_status_owner (userID : UUID) (status : string) (t : Task) :
  where_user_status userID status t = true -> UserID t = userID.
Proof.
  unfold where_user_status. intros H.
  apply andb_true_iff in H as [H _]. now apply N.eqb_eq in H.
Qed.

Lemma Offset_subseteq (n : Z) (rows : list Task) : Offset n rows ⊆ rows.
Proof.
  unfold Offset. destruct (0 <? n); [|done].
  apply subseteq_drop.
Qed.

Lemma Limit_subseteq (n : Z) (rows : list Task) : Limit n rows ⊆ rows.
Proof.
  unfold Limit. destruct (0 <=? n); [|done].
  apply subseteq_take.
Qed.

Lemma insert_row_Permutation (t : Task) (rows : list Task) :
  insert_row t rows ≡ₚ t :: rows.
Proof.
  induction rows as [|r rows IH]; cbn; [done|].
  destruct (CreatedAt t <? CreatedAt r); [|done].
  rewrite IH. apply Permutation_swap.
Qed.

Lemma order_by_created_desc_Permutation (rows : list Task) :
  order_by_created_desc rows ≡ₚ rows.
Proof.
  induction rows as [|r rows IH]; cbn; [done|].
  now rewrite insert_row_Permutation, IH.
Qed.

(** Every row [GetAll] returns passes its filter. *)
Lemma GetAll_rows_filtered userID status page limit db found total t :
  GetAll userID status page limit db = Ok (found, total) ->
  t ∈ found ->
  t ∈ tasks db /\ where_user_status userID status t = true.
Proof.
  unfold GetAll. destruct (fault db); [discriminate|].
  intros [= <- _] Ht.
  apply Limit_subseteq, Offset_subseteq in Ht.
  rewrite order_by_created_desc_Permutation in Ht.
  apply list_elem_of_In, filter_In in Ht as [Ht Hf].
  split; [now apply list_elem_of_In|done].
Qed.

(** A row of another user is not matched by the ownership predicate. *)
Lemma where_id_user_other (id V : UUID) (t : Task) :
  UserID t <> V -> where_id_user id V t = false.
Proof.
  intros Hne. unfold where_id_user.
  destruct (N.eqb_spec (UserID t) V); [done|]. apply andb_false_r.
Qed.

Lemma Update_frame (V : UUID) now task db :
  UserID task = V ->
  rows_of_others V (Update now task db).2 = rows_of_others V db.
Proof.
  intros <-. unfold Update, rows_of_others.
  destruct (fault db); [done|].
  destruct (forallb _ _); [|done].
  destruct (length _ =? 0)%nat; [done|]. cbn.
  induction (tasks db) as [|r rows IH]; [done|]. cbn.
  destruct (where_id_user (ID task) (UserID task) r) eqn:Hhit.
  - apply where_id_user_owner in Hhit as [_ Hu].
    assert (UserID (assign now task r) = UserID task) as ->.
    { cbn. destruct (N.eqb (UserID task) uuid.Nil); congruence. }
    rewrite Hu, N.eqb_refl. cbn. apply IH.
  - destruct (negb (N.eqb (UserID r) (UserID task))); [f_equal|]; apply IH.
Qed.

Lemma Delete_frame (V id : UUID) db :
  rows_of_others V (Delete id V db).2 = rows_of_others V db.
Proof.
  unfold Delete, rows_of_others.
  destruct (fault db); [done|].
  destruct (length _ =? 0)%nat; [done|]. cbn.
  induction (tasks db) as [|r rows IH]; [done|]. cbn.
  destruct (where_id_user id V r) eqn:Hhit; cbn.
  - apply where_id_user_owner in Hhit as [_ ->].
    rewrite N.eqb_refl. cbn. apply IH.
  - destruct (negb (N.eqb (UserID r) V)); [f_equal|]; apply IH.
Qed.

Lemma elem_of_rows_of_others (V : UUID) (T : Task) db :
  UserID T <> V -> (T ∈ rows_of_others V db <-> T ∈ tasks db).
Proof.
  intros Hne. unfold rows_of_others.
  rewrite !list_elem_of_In, filter_In.
  destruct (N.eqb_spec (UserID T) V); [done|]. cbn. tauto.
Qed.

(** C1: ownership isolation at the store.  For a user [V] and a task [T] of
    another user, the read by id and the list invoked with [V] never return
    [T], and the update and the delete invoked with [V] leave [T], and
    every row of the other users, as it was. *)
Theorem ownership_isolation_at_the_store (V : UUID) (T : Task) :
  UserID T <> V ->
  (forall id db, GetByID id V db <> Ok T)
  /\ (forall status page limit db found total,
        GetAll V status page limit db = Ok (found, total) -> T ∉ found)
  /\ (forall now task db,
        UserID task = V ->
        (Update now task db).1 <> Ok T
        /\ rows_of_others V (Update now task db).2 = rows_of_others V db
        /\ (T ∈ tasks (Update now task db).2 <-> T ∈ tasks db))
  /\ (forall id db,
        rows_of_others V (Delete id V db).2 = rows_of_others V db
        /\ (T ∈ tasks (Delete id V db).2 <-> T ∈ tasks db)).
Proof.
  intros Hne. split; [|split; [|split]].
  - intros id db. unfold GetByID.
    destruct (fault db); [done|].
    destruct (List.find _ _) eqn:Hfind; [|done].
    apply find_some in Hfind as [_ Hhit].
    apply where_id_user_owner in Hhit as [_ Hu]. congruence.
  - intros status page limit db found total Hget Hin.
    destruct (GetAll_rows_filtered _ _ _ _ _ _ _ _ Hget Hin) as [_ Hf].
    apply where_user_status_owner in Hf. contradiction.
  - intros now task db HV. split; [|split].
    + unfold Update. destruct (fault db); [done|].
      destruct (forallb _ _); [|done].
      destruct (length _ =? 0)%nat; [done|]. cbn.
      intros [= <-]. cbn in Hne. congruence.
    + now apply Update_frame.
    + rewrite <- (elem_of_rows_of_others V T (Update now task db).2 Hne).
      rewrite Update_frame by done. now apply elem_of_rows_of_others.
  - intros id db. split.
    + apply Delete_frame.
    + rewrite <- (elem_of_rows_of_others V T (Delete id V db).2 Hne).
      rewrite Delete_frame. now apply elem_of_rows_of_others.
Qed.

(** ** Order of the list *)

Lemma created_desc_transitive : Transitive created_desc.
Proof. intros a b c. unfold created_desc. lia. Qed.

Lemma insert_row_HdRel (t a : Task) (rows : list Task) :
  created_desc a t -> HdRel created_desc a rows ->
  HdRel created_desc a (insert_row t rows).
Proof.
  intros Hat Hhd. destruct rows as [|r rows]; cbn.
  - now constructor.
  - destruct (CreatedAt t <? CreatedAt r); constructor; [|done].
    now inversion Hhd.
Qed.

Lemma insert_row_Sorted (t : Task) (rows : list Task) :
  Sorted created_desc rows -> Sorted created_desc (insert_row t rows).
Proof.
  induction rows as [|r rows IH]; cbn; intros Hs.
  - repeat constructor.
  - apply Sorted_inv in Hs as [Hs Hhd].
    destruct (Z.ltb_spec (CreatedAt t) (CreatedAt r)).
    + constructor; [now apply IH|].
      apply insert_row_HdRel; [unfold created_desc; lia|done].
    + constructor; [now constructor|].
      constructor. unfold created_desc. lia.
Qed.

Lemma order_by_created_desc_sorted (rows : list Task) :
  StronglySorted created_desc (order_by_created_desc rows).
Proof.
  apply Sorted_StronglySorted; [apply created_desc_transitive|].
  induction rows as [|r rows IH]; cbn; [constructor|].
  now apply insert_row_Sorted.
Qed.

Lemma Offset_sorted (n : Z) (rows : list Task) :
  StronglySorted created_desc rows -> StronglySorted created_desc (Offset n rows).
Proof.
  unfold Offset. destruct (0 <? n); [|done].
  rewrite <- (take_drop (Z.to_nat n) rows) at 1.
  apply StronglySorted_app_1_r.
Qed.

Lemma Limit_sorted (n : Z) (rows : list Task) :
  StronglySorted created_desc rows -> StronglySorted created_desc (Limit n rows).
Proof.
  unfold Limit. destruct (0 <=? n); [|done].
  rewrite <- (take_drop (Z.to_nat n) rows) at 1.
  apply StronglySorted_app_1_l.
Qed.

Lemma StronglySorted_newest_first (found : list Task) :
  StronglySorted created_desc found -> newest_first found.
Proof.
  intros Hs i j a b Hij Ha Hb.
  rewrite <- (take_drop_middle found j b Hb) in Hs.
  apply (StronglySorted_app_1_elem_of created_desc _ _ a b Hs).
  - apply (list_elem_of_lookup_2 _ i). now rewrite lookup_take_lt.
  - left.
Qed.

(** C8, as the code has it: for every user and status filter, the rows of
    a list are ordered by creation time, newest first.  Nothing is said
    about rows created at the same instant. *)
Theorem list_newest_first userID status page limit db found total :
  GetAll userID status page limit db = Ok (found, total) ->
  newest_first found.
Proof.
  unfold GetAll. destruct (fault db); [discriminate|].
  intros [= <- _].
  apply StronglySorted_newest_first, Limit_sorted, Offset_sorted.
  apply order_by_created_desc_sorted.
Qed.

(** C8, refuted as stated: three rows of one user created at the same
    instant come back in the order the table holds them, here with ids
    2, 1, 3, which is an order of the ids in neither direction; the same
    rows held in another order come back in that other order. *)
Lemma list_ties_not_ordered_by_id :
  GetAll alice "" 1 10 tie_db
  = Ok ([row 2 alice 1000; row 1 alice 1000; row 3 alice 1000], 3)
  /\ GetAll alice "" 1 10 tie_db_by_id
     = Ok ([row 1 alice 1000; row 2 alice 1000; row 3 alice 1000], 3)
  /\ ~ ties_by_id N.lt [row 2 alice 1000; row 1 alice 1000; row 3 alice 1000]
  /\ ~ ties_by_id (fun a b => N.lt b a)
         [row 2 alice 1000; row 1 alice 1000; row 3 alice 1000].
Proof.
  split; [vm_compute; reflexivity|]. split; [vm_compute; reflexivity|]. split.
  - intros H.
    specialize (H 0%nat 1%nat _ _ ltac:(lia) eq_refl eq_refl eq_refl).
    cbn in H. lia.
  - intros H.
    specialize (H 1%nat 2%nat _ _ ltac:(lia) eq_refl eq_refl eq_refl).
    cbn in H. lia.
Qed.

(** ** Requests that match no row *)

Lemma no_row_find (id u : UUID) (db : DB) :
  no_row id u db -> List.find (where_id_user id u) (tasks db) = None.
Proof.
  intros Hno. destruct (List.find _ _) as [t|] eqn:Hfind; [|done].
  apply find_some in Hfind as [Hin Hhit].
  apply where_id_user_owner in Hhit as [Hid Hu].
  apply list_elem_of_In in Hin. now destruct (Hno t Hin Hid).
Qed.

Lemma no_row_filter (id u : UUID) (db : DB) :
  no_row id u db -> List.filter (where_id_user id u) (tasks db) = [].
Proof.
  intros Hno. unfold no_row in Hno.
  induction (tasks db) as [|r rows IH]; [done|]. cbn.
  destruct (where_id_user id u r) eqn:Hhit.
  - apply where_id_user_owner in Hhit as [Hid Hu].
    destruct (Hno r ltac:(left) Hid Hu).
  - apply IH. intros t Ht. apply Hno. now right.
Qed.

Lemma GetByID_miss (id u : UUID) (db : DB) :
  no_row id u db -> exists msg, GetByID id u db = Err msg.
Proof.
  intros Hno. unfold GetByID. destruct (fault db); [eauto|].
  rewrite no_row_find by done. eauto.
Qed.

Lemma Delete_miss (id u : UUID) (db : DB) :
  no_row id u db -> exists msg, Delete id u db = (Err msg, db).
Proof.
  intros Hno. unfold Delete. destruct (fault db); [eauto|].
  rewrite no_row_filter by done. cbn. eauto.
Qed.

(** C2, as the code has it: a protected read, update or delete that
    matches no row (the id is absent or the task is another user's) is
    answered with the repository error under HTTP 500 and leaves the store
    as it was; the service has one answer for every error of the store, so
    a store that cannot be reached gets the same response. *)
Theorem miss_is_repository_error (u id : UUID) (taskIDStr : string) (db : DB) :
  uuid.Parse taskIDStr = Some id ->
  no_row id u db ->
  handlers.GetTask (Some (UUIDValue u)) taskIDStr db
    = (handlers.custom (response.RepositoryError "failed to get task"), db)
  /\ (forall now body req,
        handlers.bindUpdate body = Some req ->
        handlers.validateUpdate req = ∅ ->
        handlers.UpdateTask now (Some (UUIDValue u)) taskIDStr body db
        = (handlers.custom
             (response.RepositoryError "failed to get task for update"), db))
  /\ handlers.DeleteTask (Some (UUIDValue u)) taskIDStr db
     = (handlers.custom (response.RepositoryError "failed to delete task"), db)
  /\ Code (handlers.custom (response.RepositoryError "failed to get task")) = 500
  /\ (forall e down,
        fault down = Some e ->
        (handlers.GetTask (Some (UUIDValue u)) taskIDStr down).1
        = (handlers.GetTask (Some (UUIDValue u)) taskIDStr db).1).
Proof.
  intros Hparse Hno.
  destruct (GetByID_miss id u db Hno) as [m1 Hget].
  destruct (Delete_miss id u db Hno) as [m2 Hdel].
  assert (handlers.GetTask (Some (UUIDValue u)) taskIDStr db
    = (handlers.custom (response.RepositoryError "failed to get task"), db))
    as HT.
  { unfold handlers.GetTask. rewrite Hparse. cbn.
    unfold store_only.GetTask. now rewrite Hget. }
  split; [exact HT|]. split; [|split; [|split]].
  - intros now body req Hbind Hval. unfold handlers.UpdateTask.
    rewrite Hparse, Hbind, Hval. cbn.
    unfold store_only.UpdateTask. now rewrite Hget.
  - unfold handlers.DeleteTask. rewrite Hparse. cbn.
    unfold store_only.DeleteTask. now rewrite Hdel.
  - reflexivity.
  - intros e down Hdown. rewrite HT.
    unfold handlers.GetTask. rewrite Hparse. cbn.
    unfold store_only.GetTask, GetByID. now rewrite Hdown.
Qed.

(** C2, refuted as stated: Bob reads Alice's task.  No row matches, the
    store reports "task not found", and the response is 500, not 404. *)
Lemma cross_user_read_is_500 :
  GetByID 77 bob cross_db = Err "task not found"
  /\ Code (handlers.GetTask (Some (UUIDValue bob)) id77 cross_db).1 = 500
  /\ Code (handlers.GetTask (Some (UUIDValue bob)) id77 cross_db).1 <> 404.
Proof. vm_compute. repeat split; discriminate. Qed.

(** ** Status domain *)

Lemma oneof_IsValid (st : string) : handlers.oneof st = enum.IsValid st.
Proof.
  unfold handlers.oneof, enum.IsValid, enum.StatusToDo, enum.StatusInProgress,
    enum.StatusDone.
  destruct (String.eqb_spec st "TO_DO") as [->|H1]; [done|].
  destruct (String.eqb_spec st "IN_PROGRESS") as [->|H2]; [done|].
  destruct (String.eqb_spec st "DONE") as [->|H3]; [done|].
  apply bool_decide_eq_false. rewrite !elem_of_cons, elem_of_nil. tauto.
Qed.

Lemma validateUpdate_invalid_status (req : params.UpdateTaskRequest.t) st :
  params.UpdateTaskRequest.Status req = Some st ->
  enum.IsValid st = false ->
  handlers.validateUpdate req <> ∅.
Proof.
  intros Hst Hinv Hempty.
  assert (handlers.validateUpdate req !! "Status" = Some handlers.msg_oneof)
    as Hlook.
  { unfold handlers.validateUpdate. rewrite Hst, oneof_IsValid, Hinv.
    apply lookup_union_Some_raw. right. split; [|apply lookup_singleton_eq].
    destruct (params.UpdateTaskRequest.Title req) as [t|];
      [destruct (255 <? RuneCount t)|]; done. }
  rewrite Hempty in Hlook. done.
Qed.

Lemma Create_valid fresh now task db :
  valid_statuses db -> valid_statuses (Create fresh now task db).2.
Proof.
  intros Hv. unfold Create. destruct (fault db); [done|].
  match goal with |- context [row_ok ?t] => destruct (row_ok t) eqn:Hok end;
    [|done].
  match goal with |- context [if ?c then _ else _] => destruct c end; [|done].
  cbn. apply Forall_app. split; [done|].
  constructor; [|constructor].
  unfold row_ok in Hok. now apply andb_true_iff in Hok as [Hok _].
Qed.

Lemma Update_valid now task db :
  valid_statuses db -> valid_statuses (Update now task db).2.
Proof.
  intros Hv. unfold Update. destruct (fault db); [done|].
  destruct (forallb _ _) eqn:Hall; [|done].
  destruct (length _ =? 0)%nat; [done|]. cbn.
  unfold valid_statuses in *. cbn.
  induction (tasks db) as [|r rows IH]; [constructor|].
  cbn in Hall |- *. apply Forall_cons in Hv as [Hr Hv].
  destruct (where_id_user (ID task) (UserID task) r) eqn:Hhit.
  - cbn in Hall. apply andb_true_iff in Hall as [Hok Hall].
    constructor; [|now apply IH].
    unfold row_ok in Hok. now apply andb_true_iff in Hok as [Hok _].
  - constructor; [done|now apply IH].
Qed.

Lemma Delete_valid id u db :
  valid_statuses db -> valid_statuses (Delete id u db).2.
Proof.
  intros Hv. unfold Delete. destruct (fault db); [done|].
  destruct (length _ =? 0)%nat; [done|]. cbn.
  unfold valid_statuses in *. cbn.
  induction (tasks db) as [|r rows IH]; [constructor|].
  apply Forall_cons in Hv as [Hr Hv]. cbn.
  destruct (negb _); [constructor|]; auto.
Qed.

Lemma Create_appends fresh now task db t db' :
  Create fresh now task db = (Ok t, db') ->
  tasks db' = (tasks db ++ [t])%list
  /\ (Status task <> "" -> Status t = Status task).
Proof.
  unfold Create. destruct (fault db); [discriminate|].
  match goal with |- context [if ?c then _ else _] => destruct c end;
    [|discriminate].
  intros [= <- <-]. split; [done|].
  intros Hne. unfold BeforeCreate.
  repeat match goal with
         | |- context [if ?c then _ else _] => destruct c eqn:?
         end; cbn in *; try done;
    match goal with
    | H : String.eqb _ _ = true |- _ => apply String.eqb_eq in H; cbn in H
    end; congruence.
Qed.

Lemma serve_valid u (r : write_request) db :
  valid_statuses db -> valid_statuses (serve (Some (UUIDValue u)) r db).2.
Proof.
  intros Hv. destruct r as [fresh now body|now taskIDStr body|taskIDStr];
    unfold serve.
  - unfold handlers.CreateTask.
    destruct (handlers.bindCreate body) as [req|]; [|done].
    case_bool_decide; [|done].
    cbn [services.CreateTask taskService]. unfold store_only.CreateTask.
    match goal with |- context [Create ?f ?n ?t ?d] =>
      pose proof (Create_valid f n t d Hv); destruct (Create f n t d) as [[?|?] ?]
    end; done.
  - unfold handlers.UpdateTask.
    destruct (uuid.Parse taskIDStr) as [id|]; [|done].
    destruct (handlers.bindUpdate body) as [req|]; [|done].
    case_bool_decide; [|done].
    cbn [services.UpdateTask taskService]. unfold store_only.UpdateTask.
    destruct (GetByID id u db) as [task|]; [|done].
    destruct (apply_request req task) as [task'|]; [|done].
    pose proof (Update_valid now task' db Hv).
    destruct (Update now task' db) as [[?|?] ?]; done.
  - unfold handlers.DeleteTask.
    destruct (uuid.Parse taskIDStr) as [id|]; [|done].
    cbn [services.DeleteTask taskService]. unfold store_only.DeleteTask.
    pose proof (Delete_valid id u db Hv).
    destruct (Delete id u db) as [[?|?] ?]; done.
Qed.

(** C3, as the code has it: an update request whose body carries a status
    outside the enumeration is answered 400 and leaves the store as it
    was; a create request has no status field, so the status member of its
    body is not read and the created task is stored as TO_DO; and every
    stored status stays a value of the enumeration under every write
    request. *)
Theorem status_domain (u : UUID) (r : write_request) (db : DB) :
  valid_statuses db ->
  valid_statuses (serve (Some (UUIDValue u)) r db).2
  /\ (forall now taskIDStr o,
        r = PatchTask now taskIDStr (Some o) ->
        carries_invalid_status o ->
        Code (serve (Some (UUIDValue u)) r db).1 = 400
        /\ (serve (Some (UUIDValue u)) r db).2 = db)
  /\ (forall fresh now o,
        r = PostTask fresh now (Some o) ->
        serve (Some (UUIDValue u)) r db
        = serve (Some (UUIDValue u))
            (PostTask fresh now
               (Some {| title := title o; description := description o;
                        status := Absent |})) db
        /\ (Code (serve (Some (UUIDValue u)) r db).1 = 201 ->
            exists t, tasks (serve (Some (UUIDValue u)) r db).2
                      = (tasks db ++ [t])%list
                      /\ Status t = enum.StatusToDo)).
Proof.
  intros Hv. split; [now apply serve_valid|]. split.
  - intros now taskIDStr o -> Hbad. unfold serve, handlers.UpdateTask.
    destruct (uuid.Parse taskIDStr) as [id|]; [|done].
    destruct (handlers.bindUpdate (Some o)) as [req|] eqn:Hbind; [|done].
    assert (exists st, params.UpdateTaskRequest.Status req = Some st
                       /\ enum.IsValid st = false) as (st & Hst & Hinv).
    { unfold handlers.bindUpdate in Hbind. cbn in Hbind.
      unfold carries_invalid_status in Hbad.
      destruct (handlers.bind_pointer (title o)); [|done].
      destruct (handlers.bind_pointer (description o)); [|done].
      cbn in Hbind. destruct (status o); cbn in Hbind; try done.
      injection Hbind as <-. eauto. }
    pose proof (validateUpdate_invalid_status req st Hst Hinv).
    case_bool_decide; done.
  - intros fresh now o ->. split; [reflexivity|].
    unfold serve, handlers.CreateTask.
    destruct (handlers.bindCreate (Some o)) as [req|]; [|done].
    case_bool_decide; [|done].
    cbn [services.CreateTask taskService]. unfold store_only.CreateTask.
    match goal with |- context [Create ?f ?n ?t ?d] =>
      destruct (Create f n t d) as [[t'|?] db'] eqn:Hc
    end; [|done].
    intros _. apply Create_appends in Hc as [Htasks Hst].
    exists t'. split; [done|]. now apply Hst.
Qed.

(** C3, refuted as stated: a create request whose body carries the status
    "WAT" is answered 201, and the task is stored as TO_DO. *)
Lemma create_with_invalid_status_is_201 :
  let body := Some {| title := JString "A"; description := Absent;
                      status := JString "WAT" |} in
  enum.IsValid "WAT" = false
  /\ Code (handlers.CreateTask 77 1000 (Some (UUIDValue alice)) body empty_db).1
     = 201
  /\ map Status
       (tasks (handlers.CreateTask 77 1000 (Some (UUIDValue alice)) body
                 empty_db).2)
     = ["TO_DO"].
Proof. vm_compute. repeat split. Qed.

(** ** Partial update *)

Lemma unique_ids_eq (db : DB) (a b : Task) :
  unique_ids db -> a ∈ tasks db -> b ∈ tasks db -> ID a = ID b -> a = b.
Proof.
  unfold unique_ids. induction (tasks db) as [|r rows IH]; cbn.
  - intros _ Ha. now apply elem_of_nil in Ha.
  - intros Hnd Ha Hb Hid. apply NoDup_cons in Hnd as [Hr Hnd].
    apply elem_of_cons in Ha as [->|Ha]; apply elem_of_cons in Hb as [->|Hb].
    + done.
    + destruct Hr. rewrite Hid. now apply list_elem_of_fmap_2.
    + destruct Hr. rewrite <- Hid. now apply list_elem_of_fmap_2.
    + now apply IH.
Qed.

Lemma GetByID_found (id u : UUID) (db : DB) (old : Task) :
  GetByID id u db = Ok old ->
  old ∈ tasks db /\ ID old = id /\ UserID old = u.
Proof.
  unfold GetByID. destruct (fault db); [discriminate|].
  destruct (List.find _ _) as [t|] eqn:Hfind; [|discriminate].
  intros [= ->]. apply find_some in Hfind as [Hin Hhit].
  apply where_id_user_owner in Hhit. split; [now apply list_elem_of_In|done].
Qed.

Lemma apply_request_fields (req : params.UpdateTaskRequest.t) (old task : Task) :
  apply_request req old = Some task ->
  ID task = ID old /\ UserID task = UserID old
  /\ CreatedAt task = CreatedAt old
  /\ (params.UpdateTaskRequest.Title req = None -> Title task = Title old)
  /\ (params.UpdateTaskRequest.Description req = None ->
      Description task = Description old)
  /\ (params.UpdateTaskRequest.Status req = None -> Status task = Status old).
Proof.
  unfold apply_request.
  destruct (params.UpdateTaskRequest.Title req),
    (params.UpdateTaskRequest.Description req),
    (params.UpdateTaskRequest.Status req) as [st|];
    try destruct (enum.IsValid st); intros [= <-]; cbn; repeat split; done.
Qed.

Lemma bind_pointer_unset (m : member) (x : option string) :
  handlers.bind_pointer m = Some x -> unset m -> x = None.
Proof. intros Hb [-> | ->]; cbn in Hb; congruence. Qed.

Lemma bindUpdate_fields (o : Object) (req : params.UpdateTaskRequest.t) :
  handlers.bindUpdate (Some o) = Some req ->
  handlers.bind_pointer (title o) = Some (params.UpdateTaskRequest.Title req)
  /\ handlers.bind_pointer (description o)
     = Some (params.UpdateTaskRequest.Description req)
  /\ handlers.bind_pointer (status o)
     = Some (params.UpdateTaskRequest.Status req).
Proof.
  unfold handlers.bindUpdate. cbn.
  destruct (handlers.bind_pointer (title o)); [|done].
  destruct (handlers.bind_pointer (description o)); [|done].
  destruct (handlers.bind_pointer (status o)); [|done].
  cbn. now intros [= <-].
Qed.

Lemma Update_rows now task db :
  match Update now task db with
  | (Ok _, db') =>
      tasks db'
      = map (fun r => if where_id_user (ID task) (UserID task) r
                      then assign now task r else r) (tasks db)
  | (Err _, db') => db' = db
  end.
Proof.
  unfold Update. destruct (fault db); [done|].
  destruct (forallb _ _); [|done].
  now destruct (length _ =? 0)%nat.
Qed.

(** The row an update writes, when the struct was read from that row. *)
Lemma assign_fields now (task old : Task) :
  ID task = ID old -> UserID task = UserID old ->
  CreatedAt task = CreatedAt old ->
  fixed_columns (assign now task old) = fixed_columns old
  /\ UpdatedAt (assign now task old) = now
  /\ (Title task = Title old -> Title (assign now task old) = Title old)
  /\ (Description task = Description old ->
      Description (assign now task old) = Description old)
  /\ (Status task = Status old -> Status (assign now task old) = Status old).
Proof.
  intros Hid Hu Hc. unfold fixed_columns, assign. cbn.
  rewrite Hu, Hc. repeat split.
  - now destruct (N.eqb _ _), (IsZero _).
  - intros ->. now destruct (String.eqb _ _).
  - intros ->. now destruct (Description old).
  - intros ->. now destruct (String.eqb _ _).
Qed.

(** With unique ids, the rows an update matches are the one row read. *)
Lemma update_one_row now (task old : Task) (db : DB) :
  unique_ids db -> old ∈ tasks db ->
  ID task = ID old -> UserID task = UserID old ->
  map (fun r => if where_id_user (ID task) (UserID task) r
                then assign now task r else r) (tasks db)
  = map (fun r => if N.eqb (ID r) (ID old) then assign now task old else r)
        (tasks db).
Proof.
  intros Hnd Hold Hid Hu. apply map_ext_in. intros r Hr.
  apply list_elem_of_In in Hr. unfold where_id_user. rewrite Hid, Hu.
  destruct (N.eqb_spec (ID r) (ID old)) as [Heq|Hne]; [|done].
  rewrite (unique_ids_eq db r old Hnd Hr Hold Heq).
  now rewrite N.eqb_refl.
Qed.

Lemma replace_fixed_columns (id : UUID) (new : Task) (db : DB) (old : Task) :
  unique_ids db -> old ∈ tasks db -> ID old = id ->
  fixed_columns new = fixed_columns old ->
  map fixed_columns (map (fun r => if N.eqb (ID r) id then new else r) (tasks db))
  = map fixed_columns (tasks db).
Proof.
  intros Hnd Hold Hid Hfix. rewrite map_map. apply map_ext_in. intros r Hr.
  apply list_elem_of_In in Hr.
  destruct (N.eqb_spec (ID r) id) as [Heq|Hne]; [|done].
  rewrite (unique_ids_eq db r old Hnd Hr Hold) by congruence. done.
Qed.

(** The primary key is kept by every write request. *)
Lemma Create_unique_ids fresh now task db :
  unique_ids db -> unique_ids (Create fresh now task db).2.
Proof.
  intros Hnd. unfold Create. destruct (fault db); [done|].
  match goal with |- context [row_ok ?t] => set (t4 := t) end.
  destruct (row_ok t4); [|done].
  destruct (bool_decide _); [|done].
  destruct (existsb _ _) eqn:Hex; [done|]. cbn.
  unfold unique_ids in *. cbn. rewrite map_app. cbn.
  apply NoDup_app. split; [done|]. split; [|apply NoDup_singleton].
  intros id Hin Hid. apply list_elem_of_singleton in Hid. subst id.
  apply list_elem_of_fmap in Hin as (r & Hr & Hin).
  assert (existsb (fun r => N.eqb (ID r) (ID t4)) (tasks db) = true) as Ht.
  { apply existsb_exists. exists r. split; [now apply list_elem_of_In|].
    rewrite Hr. apply N.eqb_refl. }
  congruence.
Qed.

Lemma Update_unique_ids now task db :
  unique_ids db -> unique_ids (Update now task db).2.
Proof.
  intros Hnd. pose proof (Update_rows now task db) as Hrows.
  destruct (Update now task db) as [[t|msg] db']; [|now subst db'].
  unfold unique_ids in *. cbn. rewrite Hrows, map_map.
  erewrite map_ext; [exact Hnd|].
  intros r. now destruct (where_id_user _ _ r).
Qed.

Lemma Delete_unique_ids id u db :
  unique_ids db -> unique_ids (Delete id u db).2.
Proof.
  intros Hnd. unfold Delete. destruct (fault db); [done|].
  destruct (length _ =? 0)%nat; [done|]. cbn.
  unfold unique_ids in *. cbn.
  induction (tasks db) as [|r rows IH]; [done|]. cbn in Hnd |- *.
  apply NoDup_cons in Hnd as [Hr Hnd].
  destruct (negb _); [|now apply IH]. cbn. apply NoDup_cons.
  split; [|now apply IH].
  intros Hin. apply Hr.
  apply list_elem_of_fmap in Hin as (x & -> & Hx).
  apply list_elem_of_fmap_2.
  now apply list_elem_of_In, filter_In in Hx as [Hx%list_elem_of_In _].
Qed.

Lemma serve_unique_ids u (r : write_request) db :
  unique_ids db -> unique_ids (serve (Some (UUIDValue u)) r db).2.
Proof.
  intros Hv. destruct r as [fresh now body|now taskIDStr body|taskIDStr];
    unfold serve.
  - unfold handlers.CreateTask.
    destruct (handlers.bindCreate body) as [req|]; [|done].
    case_bool_decide; [|done].
    cbn [services.CreateTask taskService]. unfold store_only.CreateTask.
    match goal with |- context [Create ?f ?n ?t ?d] =>
      pose proof (Create_unique_ids f n t d Hv);
      destruct (Create f n t d) as [[?|?] ?]
    end; done.
  - unfold handlers.UpdateTask.
    destruct (uuid.Parse taskIDStr) as [id|]; [|done].
    destruct (handlers.bindUpdate body) as [req|]; [|done].
    case_bool_decide; [|done].
    cbn [services.UpdateTask taskService]. unfold store_only.UpdateTask.
    destruct (GetByID id u db) as [task|]; [|done].
    destruct (apply_request req task) as [task'|]; [|done].
    pose proof (Update_unique_ids now task' db Hv).
    destruct (Update now task' db) as [[?|?] ?]; done.
  - unfold handlers.DeleteTask.
    destruct (uuid.Parse taskIDStr) as [id|]; [|done].
    cbn [services.DeleteTask taskService]. unfold store_only.DeleteTask.
    pose proof (Delete_unique_ids id u db Hv).
    destruct (Delete id u db) as [[?|?] ?]; done.
Qed.

(** C4, as the code has it: an update request changes one row at most, the
    one with the id of the URL and the owner of the token.  A field whose
    member is not in the body, or is [null], keeps its value: the
    description is kept under an explicit [null] as well, since the
    request type has one value for the two cases.  The update time becomes
    the time of the request, and the id, the owner and the creation time
    of every row stay as they were. *)
Theorem partial_update (now : Time) (u : UUID) (taskIDStr : string)
    (o : Object) (db : DB) :
  unique_ids db ->
  let out := handlers.UpdateTask now (Some (UUIDValue u)) taskIDStr (Some o) db in
  map fixed_columns (tasks out.2) = map fixed_columns (tasks db)
  /\ (Code out.1 <> 200 -> out.2 = db)
  /\ (Code out.1 = 200 ->
      exists id old new,
        uuid.Parse taskIDStr = Some id
        /\ old ∈ tasks db /\ ID old = id /\ UserID old = u
        /\ tasks out.2
           = map (fun r => if N.eqb (ID r) id then new else r) (tasks db)
        /\ (unset (title o) -> Title new = Title old)
        /\ (unset (description o) -> Description new = Description old)
        /\ (unset (status o) -> Status new = Status old)
        /\ UpdatedAt new = now).
Proof.
  intros Hnd out. subst out. unfold handlers.UpdateTask.
  destruct (uuid.Parse taskIDStr) as [id|]; [|done].
  destruct (handlers.bindUpdate (Some o)) as [req|] eqn:Hbind; [|done].
  case_bool_decide; [|done].
  cbn [services.UpdateTask taskService]. unfold store_only.UpdateTask.
  destruct (GetByID id u db) as [old|] eqn:Hget; [|done].
  destruct (apply_request req old) as [task|] eqn:Happly; [|done].
  pose proof (Update_rows now task db) as Hrows.
  destruct (Update now task db) as [[t''|msg] db']; [|now subst db'].
  cbn [fst snd Code].
  apply GetByID_found in Hget as (Hold & Hid & Hu).
  apply apply_request_fields in Happly as (Hid' & Hu' & Hc' & Ht & Hd & Hs).
  apply bindUpdate_fields in Hbind as (Hbt & Hbd & Hbs).
  rewrite (update_one_row now task old db Hnd Hold Hid' Hu'), Hid in Hrows.
  destruct (assign_fields now task old Hid' Hu' Hc') as (Hfix & Hupd & At & Ad & As).
  split; [|split; [done|]].
  - rewrite Hrows. now apply (replace_fixed_columns id _ db old).
  - intros _. exists id, old, (assign now task old).
    repeat split; try done.
    + intros Hun. apply At, Ht. eapply bind_pointer_unset; eauto.
    + intros Hun. apply Ad, Hd. eapply bind_pointer_unset; eauto.
    + intros Hun. apply As, Hs. eapply bind_pointer_unset; eauto.
Qed.

(** C4, refuted as stated: a PATCH whose body is [{"description": null}]
    succeeds and the stored description is still "d". *)
Lemma null_description_is_kept :
  let body := Some {| title := Absent; description := JNull;
                      status := Absent |} in
  let out := handlers.UpdateTask 2000 (Some (UUIDValue alice)) id77 body
               cross_db in
  map Description (tasks cross_db) = [Some "d"]
  /\ Code out.1 = 200
  /\ map Description (tasks out.2) = [Some "d"]
  /\ map Description (tasks out.2) <> [None].
Proof. vm_compute. repeat split; discriminate. Qed.

(** ** The list cache *)

Lemma prefix_app_same (a b c : string) :
  String.prefix (a +:+ b) (a +:+ c) = String.prefix b c.
Proof.
  induction a as [|x a IH]; simpl; [done|].
  destruct (ascii_dec x x); [apply IH|done].
Qed.




Lemma invalidate_lookup_other {V} (userID : UUID) (c : gmap string V)
    (key : string) :
  strings.HasPrefix key (cache_aware.pattern_prefix userID) = false ->
  cache_aware.invalidateUserTasksCache userID c !! key = c !! key.
Proof.
  intros Hm. unfold cache_aware.invalidateUserTasksCache.
  rewrite map_lookup_filter. destruct (c !! key) as [x|]; [|done]. cbn.
  now rewrite option_guard_True.
Qed.



(** ** The rate limiter *)

Lemma wrap64_small (z : Z) : - 2^63 <= z < 2^63 -> wrap64 z = z.
Proof. intros Hz. unfold wrap64. rewrite Z.mod_small; lia. Qed.







(** ** Keys of the list cache *)

Lemma append_cons (x : ascii) (a b : string) :
  String x a +:+ b = String x (a +:+ b).
Proof. reflexivity. Qed.

Lemma append_assoc (a b c : string) : (a +:+ b) +:+ c = a +:+ (b +:+ c).
Proof.
  induction a as [|x a IH]; [reflexivity|].
  now rewrite !append_cons, IH.
Qed.








(** ** Page and limit of a list request *)








Lemma coherent_invalidate {V} (Unmarshal : V -> option params.TasksResponse.t)
    (userID : UUID) (c : gmap string V) :
  coherent Unmarshal c ->
  coherent Unmarshal (cache_aware.invalidateUserTasksCache userID c).
Proof.
  intros Hc u status page limit v r Hl. apply (Hc u status page limit v r).
  unfold cache_aware.invalidateUserTasksCache in Hl.
  now apply map_lookup_filter_Some in Hl as [Hl _].
Qed.

(** Every write of the service keeps the cache coherent. *)
Lemma coherent_run_write {V} (Unmarshal : V -> option params.TasksResponse.t)
    (userID : UUID) (w : cache_aware.write) (st : cache_aware.State) :
  coherent Unmarshal (cache_aware.cache st) ->
  coherent Unmarshal (cache_aware.cache (cache_aware.run_write userID w st).2).
Proof.
  intros Hc. destruct w as [fresh now req|now taskID req|taskID]; cbn.
  - unfold cache_aware.CreateTask.
    match goal with |- context [Create ?f ?n ?t ?d] =>
      destruct (Create f n t d) as [[?|?] ?] end; cbn;
      [now apply coherent_invalidate|done].
  - unfold cache_aware.UpdateTask.
    destruct (GetByID _ _ _); [|done].
    destruct (apply_request _ _); [|done].
    destruct (Update _ _ _) as [[?|?] ?]; cbn;
      [now apply coherent_invalidate|done].
  - unfold cache_aware.DeleteTask.
    destruct (Delete _ _ _) as [[?|?] ?]; cbn;
      [now apply coherent_invalidate|done].
Qed.





(** ** The theorems at the sample data *)

Lemma ownership_isolation_witness :
  UserID (row 77 alice 1000) <> bob
  /\ GetByID 77 bob cross_db <> Ok (row 77 alice 1000)
  /\ rows_of_others bob (Delete 77 bob cross_db).2
     = rows_of_others bob cross_db.
Proof.
  assert (UserID (row 77 alice 1000) <> bob) as H by (vm_compute; discriminate).
  split; [exact H|].
  destruct (ownership_isolation_at_the_store bob (row 77 alice 1000) H)
    as (Hget & _ & _ & Hdel).
  split; [apply Hget|apply Hdel].
Defined.

Lemma miss_is_repository_error_witness :
  uuid.Parse id77 = Some 77%N
  /\ no_row 77 bob cross_db
  /\ handlers.GetTask (Some (UUIDValue bob)) id77 cross_db
     = (handlers.custom (response.RepositoryError "failed to get task"),
        cross_db).
Proof.
  assert (uuid.Parse id77 = Some 77%N) as Hparse by (vm_compute; reflexivity).
  assert (no_row 77 bob cross_db) as Hno.
  { intros t Ht _. apply list_elem_of_singleton in Ht. subst t.
    vm_compute. discriminate. }
  split; [exact Hparse|]. split; [exact Hno|].
  apply (miss_is_repository_error bob 77 id77 cross_db Hparse Hno).
Defined.

Lemma status_domain_witness :
  let o := {| title := Absent; description := Absent;
              status := JString "WAT" |} in
  valid_statuses cross_db
  /\ carries_invalid_status o
  /\ Code (serve (Some (UUIDValue alice)) (PatchTask 2000 id77 (Some o))
             cross_db).1 = 400
  /\ (serve (Some (UUIDValue alice)) (PatchTask 2000 id77 (Some o))
        cross_db).2 = cross_db.
Proof.
  cbv zeta.
  assert (valid_statuses cross_db) as Hv by (repeat constructor).
  split; [exact Hv|]. split; [reflexivity|].
  destruct (status_domain alice
              (PatchTask 2000 id77
                 (Some {| title := Absent; description := Absent;
                          status := JString "WAT" |})) cross_db Hv)
    as (_ & Hpatch & _).
  apply (Hpatch _ _ _ eq_refl). reflexivity.
Defined.

Lemma partial_update_witness :
  let body := {| title := Absent; description := Absent;
                 status := JString "DONE" |} in
  let out := handlers.UpdateTask 2000 (Some (UUIDValue alice)) id77
               (Some body) cross_db in
  unique_ids cross_db
  /\ map fixed_columns (tasks out.2) = map fixed_columns (tasks cross_db)
  /\ (Code out.1 <> 200 -> out.2 = cross_db).
Proof.
  cbv zeta.
  assert (unique_ids cross_db) as Hnd.
  { unfold unique_ids. cbn. apply NoDup_singleton. }
  split; [exact Hnd|].
  destruct (partial_update 2000 alice id77
              {| title := Absent; description := Absent;
                 status := JString "DONE" |} cross_db Hnd)
    as (Hfix & Hfail & _).
  split; [exact Hfix|exact Hfail].
Defined.




Lemma list_newest_first_witness :
  GetAll alice "" 1 10 tie_db
  = Ok ([row 2 alice 1000; row 1 alice 1000; row 3 alice 1000], 3)
  /\ newest_first [row 2 alice 1000; row 1 alice 1000; row 3 alice 1000].
Proof.
  assert (GetAll alice "" 1 10 tie_db
          = Ok ([row 2 alice 1000; row 1 alice 1000; row 3 alice 1000], 3))
    as Hget by (vm_compute; reflexivity).
  split; [exact Hget|].
  apply (list_newest_first alice "" 1 10 tie_db _ 3 Hget).
Defined.

(** * More of the store and of the task service *)

(** ** Create, then read *)


(** What [Create] stores for the struct the services build. *)
Lemma Create_new_row fresh now (task t : Task) db db' :
  ID task = uuid.Nil -> CreatedAt task = zeroTime ->
  UpdatedAt task = zeroTime -> Status task <> "" ->
  Create fresh now task db = (Ok t, db') ->
  tasks db' = (tasks db ++ [t])%list
  /\ t = {| ID := fresh; Title := Title task;
            Description := Description task; Status := Status task;
            UserID := UserID task; CreatedAt := now; UpdatedAt := now |}
  /\ (forall r, In r (tasks db) -> ID r <> fresh)
  /\ fault db' = None.
Proof.
  intros Hid Hc Hu Hst. destruct task as [id ti de st us cr up].
  cbn in Hid, Hc, Hu, Hst. subst id cr up.
  unfold Create.
  destruct (fault db) eqn:Hfault; [discriminate|].
  unfold BeforeCreate, with_ID, with_CreatedAt, with_UpdatedAt, with_Status.
  cbn [ID Title Description Status UserID CreatedAt UpdatedAt].
  change (N.eqb uuid.Nil uuid.Nil) with true. cbv iota.
  repeat (change (IsZero zeroTime) with true; cbv iota;
          cbn [ID Title Description Status UserID CreatedAt UpdatedAt]).
  destruct (String.eqb_spec st ""); [done|].
  match goal with |- context [row_ok ?x] => destruct (row_ok x) end;
    [|discriminate].
  destruct (bool_decide _); [|discriminate].
  destruct (existsb _ _) eqn:Hex; [discriminate|]. cbn.
  intros [= <- <-]. cbn. repeat split; try done.
  intros r Hr Heq.
  assert (existsb (fun r0 : Task => (ID r0 =? fresh)%N) (tasks db) = true)
    as Ht; [|cbn in Hex; congruence].
  apply existsb_exists. exists r. split; [done|]. now apply N.eqb_eq.
Qed.


(** ** Delete, then read *)

Lemma find_filter_disjoint {A} (f g : A -> bool) (l : list A) :
  (forall x, f x = true -> g x = false) ->
  List.find f (List.filter (fun x => negb (g x)) l) = List.find f l.
Proof.
  intros Hfg. induction l as [|x l IH]; cbn; [done|].
  destruct (f x) eqn:Hf.
  - rewrite (Hfg x Hf). cbn. now rewrite Hf.
  - destruct (negb (g x)); cbn; [now rewrite Hf|done].
Qed.

Lemma find_filter_same {A} (f : A -> bool) (l : list A) :
  List.find f (List.filter (fun x => negb (f x)) l) = None.
Proof.
  induction l as [|x l IH]; cbn; [done|].
  destruct (f x) eqn:Hf; cbn; [done|]. now rewrite Hf.
Qed.

Lemma filter_filter_negb {A} (f : A -> bool) (l : list A) :
  List.filter f (List.filter (fun x => negb (f x)) l) = [].
Proof.
  induction l as [|x l IH]; cbn; [done|].
  destruct (f x) eqn:Hf; cbn; [done|]. now rewrite Hf.
Qed.

Lemma filter_find_nonempty {A} (f : A -> bool) (l : list A) :
  (length (List.filter f l) =? 0)%nat = false ->
  exists x, List.find f l = Some x.
Proof.
  induction l as [|x l IH]; cbn; [done|].
  destruct (f x); [eauto|done].
Qed.

(** X2: when [DeleteTask] reports success, the task was there for the
    caller; afterwards the same read and a second delete fail, and the read
    of every other id, and of the same id by another user, answers as
    before. *)
Theorem delete_then_get (id u : UUID) (db db' : DB) :
  store_only.DeleteTask id u db = (Success tt, db') ->
  (exists t, GetByID id u db = Ok t)
  /\ (exists e, store_only.GetTask id u db' = (Failure e, db'))
  /\ (exists e, store_only.DeleteTask id u db' = (Failure e, db'))
  /\ (forall id' u', (id', u') <> (id, u) ->
        GetByID id' u' db' = GetByID id' u' db).
Proof.
  unfold store_only.DeleteTask, Delete.
  destruct (fault db) eqn:Hfault; [discriminate|].
  destruct (length _ =? 0)%nat eqn:Hlen; [discriminate|].
  intros [= <-]. split; [|split; [|split]].
  - unfold GetByID. rewrite Hfault.
    destruct (filter_find_nonempty _ _ Hlen) as [t ->]. eauto.
  - unfold store_only.GetTask, GetByID. cbn [fault tasks with_tasks].
    rewrite Hfault, find_filter_same. eauto.
  - cbn [fault tasks with_tasks]. rewrite Hfault.
    rewrite filter_filter_negb. cbn. eauto.
  - intros id' u' Hne. unfold GetByID. cbn [fault tasks with_tasks].
    rewrite Hfault, find_filter_disjoint; [done|].
    intros x Hx. apply where_id_user_owner in Hx as [<- <-].
    unfold where_id_user.
    destruct (N.eqb_spec (ID x) id), (N.eqb_spec (UserID x) u); try done.
    congruence.
Qed.

(** ** Update, then read *)



Lemma Update_returns now task db :
  fault (Update now task db).2 = fault db
  /\ match (Update now task db).1 with
     | Ok t => t = with_UpdatedAt task now
     | Err _ => True
     end.
Proof.
  unfold Update. destruct (fault db) eqn:Hfault; [done|].
  destruct (forallb _ _); [|done].
  now destruct (length _ =? 0)%nat.
Qed.




(** ** Writes that fail *)

Lemma failed_write_state {V : Type} (u : UUID) (w : cache_aware.write)
    (st : @cache_aware.State V) :
  (cache_aware.run_write u w st).1 = true
  \/ (cache_aware.run_write u w st).2 = st.
Proof.
  destruct st as [d c].
  destruct w as [fresh now req|now taskID req|taskID]; cbn.
  - unfold cache_aware.CreateTask. cbn [cache_aware.db cache_aware.cache].
    match goal with |- context [Create ?f ?n ?x ?d] =>
      unfold Create; destruct (fault d); [now right|] end.
    match goal with |- context [if ?c then _ else _] => destruct c end;
      [now left|now right].
  - unfold cache_aware.UpdateTask. cbn [cache_aware.db cache_aware.cache].
    destruct (GetByID taskID u d) as [task|]; [|now right].
    destruct (apply_request req task) as [task'|]; [|now right].
    pose proof (Update_rows now task' d) as Hrows.
    destruct (Update now task' d) as [[t|msg] d']; [now left|].
    right. cbn. now rewrite Hrows.
  - unfold cache_aware.DeleteTask, Delete.
    cbn [cache_aware.db cache_aware.cache].
    destruct (fault d); [now right|].
    destruct (length _ =? 0)%nat; [now right|now left].
Qed.

(** X4: a write request that is not answered with a 2xx status leaves the
    store as it was, whoever sends it; and a write of the service with the
    cache that fails leaves store and cache as they were. *)
Theorem failed_write_changes_nothing {V : Type} (user_id : option any)
    (r : write_request) (db : DB) (u : UUID) (w : cache_aware.write)
    (st : @cache_aware.State V) :
  (is_2xx (serve user_id r db).1 = true \/ (serve user_id r db).2 = db)
  /\ ((cache_aware.run_write u w st).1 = true
      \/ (cache_aware.run_write u w st).2 = st).
Proof.
  split.
  - destruct r as [fresh now body|now taskIDStr body|taskIDStr]; unfold serve.
    + unfold handlers.CreateTask.
      destruct user_id as [[uid|]|]; [|now right..].
      destruct (handlers.bindCreate body) as [req|]; [|now right].
      case_bool_decide; [|now right].
      cbn [services.CreateTask taskService]. unfold store_only.CreateTask.
      match goal with |- context [Create ?f ?n ?x ?d] =>
        pose proof (Create_appends f n x d) as Hc;
        unfold Create in *; destruct (fault d); [now right|] end.
      match goal with |- context [if ?c then _ else _] => destruct c end;
        [now left|now right].
    + unfold handlers.UpdateTask.
      destruct user_id as [[uid|]|]; [|now right..].
      destruct (uuid.Parse taskIDStr) as [id|]; [|now right].
      destruct (handlers.bindUpdate body) as [req|]; [|now right].
      case_bool_decide; [|now right].
      cbn [services.UpdateTask taskService]. unfold store_only.UpdateTask.
      destruct (GetByID id uid db) as [task|]; [|now right].
      destruct (apply_request req task) as [task'|]; [|now right].
      pose proof (Update_rows now task' db) as Hrows.
      destruct (Update now task' db) as [[t|msg] d']; [now left|].
      right. exact Hrows.
    + unfold handlers.DeleteTask.
      destruct user_id as [[uid|]|]; [|now right..].
      destruct (uuid.Parse taskIDStr) as [id|]; [|now right].
      cbn [services.DeleteTask taskService]. unfold store_only.DeleteTask.
      unfold Delete. destruct (fault db); [now right|].
      destruct (length _ =? 0)%nat; [now right|now left].
  - apply failed_write_state.
Qed.

(** ** Pages of the list *)

Lemma length_listing (u : UUID) (status : string) (db : DB) :
  length (listing u status db)
  = length (List.filter (where_user_status u status) (tasks db)).
Proof.
  unfold listing. apply Permutation_length,
    order_by_created_desc_Permutation.
Qed.

(** A page whose offset does not leave the range of [int] is a window of
    the listing. *)
Lemma GetAll_window (u : UUID) (status : string) (page limit : Z) (db : DB) :
  fault db = None -> 1 <= page -> 1 <= limit ->
  (page - 1) * limit < 2^63 ->
  GetAll u status page limit db
  = Ok (take (Z.to_nat limit)
          (drop (Z.to_nat ((page - 1) * limit)) (listing u status db)),
        Z.of_nat (length (listing u status db))).
Proof.
  intros Hfault Hp Hl Hov. unfold GetAll. rewrite Hfault.
  rewrite (wrap64_small (page - 1)) by nia.
  rewrite wrap64_small by nia.
  rewrite length_listing. f_equal. f_equal.
  unfold Limit, Offset, listing.
  destruct (Z.leb_spec 0 limit); [|lia].
  destruct (Z.ltb_spec 0 ((page - 1) * limit)); [done|].
  replace ((page - 1) * limit) with 0 by nia. done.
Qed.


(** X6: a list request for a page after the last one is answered with
    success: no rows, and the total, the page, the limit and the number of
    pages as for every other page.  (Again for offsets in the range of
    [int].) *)
Theorem page_past_the_end (u : UUID) (status : string) (page limit : Z)
    (db : DB) :
  fault db = None ->
  status = "" \/ enum.IsValid status = true ->
  1 <= limit <= 100 ->
  (page - 1) * limit < 2^63 ->
  total_pages (Z.of_nat (length (listing u status db))) limit < page ->
  store_only.GetTasks u status page limit db
  = (Success
       {| params.TasksResponse.Tasks := [];
          params.TasksResponse.Total := Z.of_nat (length (listing u status db));
          params.TasksResponse.Page := page;
          params.TasksResponse.Limit := limit;
          params.TasksResponse.TotalPages :=
            total_pages (Z.of_nat (length (listing u status db))) limit |},
     db).
Proof.
  intros Hfault Hstatus Hl Hov Hpast.
  set (total := Z.of_nat (length (listing u status db))) in *.
  assert (0 <= total) as Ht0 by (unfold total; lia).
  assert (0 <= total_pages total limit) as Hq0.
  { unfold total_pages. apply Z.div_pos; lia. }
  assert (total <= (page - 1) * limit) as Hend.
  { unfold total_pages in Hpast, Hq0.
    pose proof (Z.mul_succ_div_gt (total + limit - 1) limit ltac:(lia)).
    nia. }
  unfold store_only.GetTasks.
  destruct (Z.ltb_spec page 1); [lia|].
  destruct (Z.ltb_spec limit 1); [lia|].
  destruct (Z.ltb_spec 100 limit); [lia|]. cbn [orb].
  assert (negb (String.eqb status "") && negb (enum.IsValid status) = false)
    as ->.
  { destruct Hstatus as [-> | ->]; [done|apply andb_false_r]. }
  rewrite GetAll_window by (try done; lia).
  rewrite drop_ge by (unfold total in Hend; lia).
  rewrite take_nil. reflexivity.
Qed.

(** The precondition on the offset is needed: for this page and limit the
    product wraps around to 0 and the first page is returned. *)
Lemma huge_page_wraps :
  page_rows alice "" 64 cross_db (2^58 + 1) = page_rows alice "" 64 cross_db 1
  /\ page_rows alice "" 64 cross_db 1 = [row 77 alice 1000].
Proof. split; vm_compute; reflexivity. Qed.

(** X7: a list that is served has in [total] the number of rows of the
    caller under the filter, whatever the page and the limit are; every
    task it shows is a row of the caller, with the status asked for when
    there is one; it shows no more tasks than its [limit]; and the store
    is as before. *)
Theorem list_shows_the_callers_rows (u : UUID) (status : string)
    (page limit : Z) (db db' : DB) (r : params.TasksResponse.t) :
  store_only.GetTasks u status page limit db = (Success r, db') ->
  db' = db
  /\ params.TasksResponse.Total r = Z.of_nat (length (listing u status db))
  /\ (forall t, t ∈ params.TasksResponse.Tasks r ->
        exists row, row ∈ tasks db /\ t = to_response row /\ UserID row = u
                    /\ (status <> "" -> Status row = status))
  /\ Z.of_nat (length (params.TasksResponse.Tasks r))
     <= params.TasksResponse.Limit r.
Proof.
  unfold store_only.GetTasks.
  set (page' := if page <? 1 then 1 else page).
  set (limit' := if (limit <? 1) || (100 <? limit) then 10 else limit).
  assert (1 <= limit') as Hl.
  { subst limit'. destruct (Z.ltb_spec limit 1), (Z.ltb_spec 100 limit);
      cbn; lia. }
  destruct (negb _ && negb _); [discriminate|].
  destruct (GetAll u status page' limit' db) as [[found total]|] eqn:Hget;
    [|discriminate].
  intros [= <- <-]. split; [done|]. cbn. split; [|split].
  - unfold GetAll in Hget. destruct (fault db); [discriminate|].
    injection Hget as _ <-. now rewrite length_listing.
  - intros t Ht. apply list_elem_of_fmap in Ht as (row & -> & Hrow).
    destruct (GetAll_rows_filtered _ _ _ _ _ _ _ _ Hget Hrow) as [Hin Hf].
    exists row. split; [done|]. split; [done|].
    unfold where_user_status in Hf.
    apply andb_true_iff in Hf as [Hu Hs]. apply N.eqb_eq in Hu.
    split; [done|]. intros Hne.
    destruct (String.eqb_spec status ""); [done|]. now apply String.eqb_eq.
  - rewrite length_map. unfold GetAll in Hget.
    destruct (fault db); [discriminate|]. injection Hget as <- _.
    unfold Limit. destruct (Z.leb_spec 0 limit'); [|lia].
    rewrite length_take. lia.
Qed.

(** ** Stored titles *)

Lemma validateCreate_title (req : params.CreateTaskRequest.t) :
  handlers.validateCreate req = ∅ ->
  params.CreateTaskRequest.Title req <> ""
  /\ RuneCount (params.CreateTaskRequest.Title req) <= 255.
Proof.
  unfold handlers.validateCreate.
  destruct (String.eqb_spec (params.CreateTaskRequest.Title req) "").
  - intros H. now apply (f_equal (fun m => m !! "Title")) in H.
  - destruct (Z.ltb_spec 255 (RuneCount (params.CreateTaskRequest.Title req))).
    + intros H. now apply (f_equal (fun m => m !! "Title")) in H.
    + intros _. split; [done|lia].
Qed.

(** X8: every write request keeps the stored titles set and within 255
    characters: the create handler refuses the empty title, and an update
    that carries the empty title leaves the stored title in place. *)
Theorem stored_titles_stay_ok (user_id : option any) (r : write_request)
    (db : DB) :
  stored_titles_ok db -> stored_titles_ok (serve user_id r db).2.
Proof.
  intros Hok. destruct r as [fresh now body|now taskIDStr body|taskIDStr];
    unfold serve.
  - unfold handlers.CreateTask.
    destruct user_id as [[uid|]|]; [|done..].
    destruct (handlers.bindCreate body) as [req|]; [|done].
    case_bool_decide as Hval; [|done].
    apply validateCreate_title in Hval as [Hne Hlen].
    cbn [services.CreateTask taskService]. unfold store_only.CreateTask.
    match goal with |- context [Create ?f ?n ?x ?d] =>
      destruct (Create f n x d) as [[t|msg] d'] eqn:Hc end.
    + apply Create_new_row in Hc as (Htasks & Ht & _ & _); [|done..].
      cbn. unfold stored_titles_ok. rewrite Htasks.
      apply Forall_app. split; [done|]. constructor; [|constructor].
      subst t. cbn. done.
    + cbn. unfold Create in Hc. destruct (fault db); [now injection Hc as _ <-|].
      match type of Hc with (if ?c then _ else _) = _ => destruct c end;
        [discriminate|now injection Hc as _ <-].
  - unfold handlers.UpdateTask.
    destruct user_id as [[uid|]|]; [|done..].
    destruct (uuid.Parse taskIDStr) as [id|]; [|done].
    destruct (handlers.bindUpdate body) as [req|]; [|done].
    case_bool_decide; [|done].
    cbn [services.UpdateTask taskService]. unfold store_only.UpdateTask.
    destruct (GetByID id uid db) as [task|]; [|done].
    destruct (apply_request req task) as [task'|]; [|done].
    assert (stored_titles_ok (Update now task' db).2) as Hupd.
    { unfold Update. destruct (fault db); [done|].
      destruct (forallb _ _) eqn:Hall; [|done].
      destruct (length _ =? 0)%nat; [done|]. cbn.
      unfold stored_titles_ok in *. cbn.
      induction (tasks db) as [|x rows IH]; [constructor|].
      cbn in Hall |- *. apply Forall_cons in Hok as [Hx Hok].
      destruct (where_id_user (ID task') (UserID task') x) eqn:Hhit.
      - cbn in Hall. apply andb_true_iff in Hall as [Hrow Hall].
        constructor; [|now apply IH].
        unfold row_ok in Hrow. apply andb_true_iff in Hrow as [_ Hlen].
        apply Z.leb_le in Hlen. split; [|exact Hlen]. cbn.
        destruct (String.eqb_spec (Title task') ""); [apply Hx|done].
      - constructor; [done|now apply IH]. }
    destruct (Update now task' db) as [[?|?] ?]; exact Hupd.
  - unfold handlers.DeleteTask.
    destruct user_id as [[uid|]|]; [|done..].
    destruct (uuid.Parse taskIDStr) as [id|]; [|done].
    cbn [services.DeleteTask taskService]. unfold store_only.DeleteTask.
    assert (stored_titles_ok (Delete id uid db).2) as Hdel.
    { unfold Delete. destruct (fault db); [done|].
      destruct (length _ =? 0)%nat; [done|]. cbn.
      unfold stored_titles_ok in *. cbn.
      induction (tasks db) as [|x rows IH]; [constructor|].
      apply Forall_cons in Hok as [Hx Hok]. cbn.
      destruct (negb _); [constructor|]; auto. }
    destruct (Delete id uid db) as [[?|?] ?]; exact Hdel.
Qed.

(** ** The further theorems at the sample data *)


Lemma delete_then_get_witness :
  exists db',
    store_only.DeleteTask 77 alice cross_db = (Success tt, db')
    /\ exists e, store_only.GetTask 77 alice db' = (Failure e, db').
Proof.
  exists (store_only.DeleteTask 77 alice cross_db).2.
  assert (store_only.DeleteTask 77 alice cross_db
          = (Success tt, (store_only.DeleteTask 77 alice cross_db).2)) as H
    by (vm_compute; reflexivity).
  split; [exact H|].
  apply (delete_then_get 77 alice cross_db _ H).
Defined.



Lemma page_past_the_end_witness :
  fault tie_db = None
  /\ 1 <= 2 <= 100
  /\ (5 - 1) * 2 < 2^63
  /\ total_pages (Z.of_nat (length (listing alice "" tie_db))) 2 < 5
  /\ (store_only.GetTasks alice "" 5 2 tie_db).1
     = Success (list_response [] 3 5 2).
Proof.
  assert (fault tie_db = None) as H1 by reflexivity.
  assert (1 <= 2 <= 100) as H2 by lia.
  assert ((5 - 1) * 2 < 2^63) as H3 by (vm_compute; reflexivity).
  assert (total_pages (Z.of_nat (length (listing alice "" tie_db))) 2 < 5)
    as H4 by (vm_compute; reflexivity).
  split; [exact H1|]. split; [exact H2|]. split; [exact H3|].
  split; [exact H4|].
  rewrite (page_past_the_end alice "" 5 2 tie_db H1 (or_introl eq_refl)
             H2 H3 H4).
  reflexivity.
Defined.

Lemma list_shows_the_callers_rows_witness :
  exists r,
    store_only.GetTasks alice "TO_DO" 1 2 tie_db = (Success r, tie_db)
    /\ params.TasksResponse.Total r = 3
    /\ Z.of_nat (length (params.TasksResponse.Tasks r))
       <= params.TasksResponse.Limit r.
Proof.
  destruct (store_only.GetTasks alice "TO_DO" 1 2 tie_db) as [[r|e] db']
    eqn:H.
  - assert (db' = tie_db) as ->
      by (apply (f_equal snd) in H; vm_compute in H; now subst db').
    exists r. split; [reflexivity|].
    destruct (list_shows_the_callers_rows alice "TO_DO" 1 2 tie_db tie_db r H)
      as (_ & Htotal & _ & Hlen).
    split; [|exact Hlen]. rewrite Htotal. vm_compute. reflexivity.
  - vm_compute in H. discriminate.
Defined.

Lemma stored_titles_stay_ok_witness :
  let body := {| title := JString ""; description := Absent;
                 status := Absent |} in
  stored_titles_ok cross_db
  /\ stored_titles_ok
       (serve (Some (UUIDValue alice)) (PatchTask 2000 id77 (Some body))
          cross_db).2.
Proof.
  cbv zeta.
  assert (stored_titles_ok cross_db) as H.
  { constructor; [|constructor]. split; [discriminate|vm_compute; discriminate]. }
  split; [exact H|].
  apply (stored_titles_stay_ok (Some (UUIDValue alice))
           (PatchTask 2000 id77
              (Some {| title := JString ""; description := Absent;
                       status := Absent |})) cross_db H).
Defined.

(** * More of the rate limiter *)

Lemma append_inj_r (p a b : string) : p +:+ a = p +:+ b -> a = b.
Proof.
  induction p as [|c p IH]; [done|]. rewrite !append_cons.
  intros [= H]. auto.
Qed.

(** The outcome of the limiter for a client is a function of the count
    under the client's key. *)
Lemma RateLimitMiddleware_outcome cfg clientIP now net
    (r1 r2 : middleware.Redis) :
  r1 !! ("rate_limit:" +:+ clientIP) = r2 !! ("rate_limit:" +:+ clientIP) ->
  (middleware.RateLimitMiddleware (Some r1) cfg clientIP now net).1
  = (middleware.RateLimitMiddleware (Some r2) cfg clientIP now net).1.
Proof.
  intros Hkey. unfold middleware.RateLimitMiddleware. rewrite Hkey.
  destruct net; [|done|];
    destruct (config.RateLimitRequests cfg <=? _); done.
Qed.

(** X9: a request that passes the limiter changes at most the count under
    the key of its own address, so what the limiter answers to any other
    address is not affected; the limiter answers a request itself only
    when Redis gave a count that has reached the limit, with status 429
    and without counting the request; without a client, or when the read
    fails, the request goes on. *)
Theorem rate_limiter_keeps_to_its_key (cfg : config.Config)
    (clientIP : string) (now : Time) (net : middleware.round_trips)
    (r : middleware.Redis) :
  let out := middleware.RateLimitMiddleware (Some r) cfg clientIP now net in
  (exists r', out.2 = Some r'
     /\ (forall key, key <> "rate_limit:" +:+ clientIP -> r' !! key = r !! key)
     /\ (forall ip' now' net', ip' <> clientIP ->
           (middleware.RateLimitMiddleware (Some r') cfg ip' now' net').1
           = (middleware.RateLimitMiddleware (Some r) cfg ip' now' net').1))
  /\ (forall resp headers, out.1 = middleware.Abort resp headers ->
        Code resp = 429 /\ headers = ∅ /\ out.2 = Some r
        /\ net <> middleware.GetFails
        /\ config.RateLimitRequests cfg
           <= default 0 (r !! ("rate_limit:" +:+ clientIP)))
  /\ (middleware.RateLimitMiddleware None cfg clientIP now net).1
     = middleware.Next ∅ ∅
  /\ (middleware.RateLimitMiddleware (Some r) cfg clientIP now
        middleware.GetFails).1 = middleware.Next ∅ ∅.
Proof.
  cbv zeta.
  assert (exists r',
    (middleware.RateLimitMiddleware (Some r) cfg clientIP now net).2 = Some r'
    /\ forall key, key <> "rate_limit:" +:+ clientIP -> r' !! key = r !! key)
    as (r' & Hr' & Hframe).
  { unfold middleware.RateLimitMiddleware.
    destruct net; [|eauto|];
      destruct (config.RateLimitRequests cfg <=? _); eauto.
    eexists. split; [reflexivity|]. intros key Hkey.
    unfold middleware.incr_expire. destruct (_ <=? 0).
    - now apply lookup_delete_ne.
    - now apply lookup_insert_ne. }
  split; [|split; [|split; reflexivity]].
  - exists r'. split; [exact Hr'|]. split; [exact Hframe|].
    intros ip' now' net' Hip. apply RateLimitMiddleware_outcome, Hframe.
    intros Heq. now apply append_inj_r in Heq.
  - intros resp headers. unfold middleware.RateLimitMiddleware.
    destruct net; [|discriminate|];
      destruct (Z.leb_spec (config.RateLimitRequests cfg)
                  (default 0 (r !! ("rate_limit:" +:+ clientIP))));
      try discriminate; intros [= <- <-]; repeat split; done.
Qed.



(** * Task ids in URLs and user ids in cache keys *)

Lemma xval_hexdigit (n : N) :
  (n < 16)%N -> uuid.xval (uuid.hexdigit n) = Some n.
Proof.
  intros Hn. rewrite <- (N2Nat.id n).
  assert (N.to_nat n < 16)%nat as Hk by lia.
  revert Hk. generalize (N.to_nat n) as k. intros k Hk.
  do 16 (destruct k as [|k]; [reflexivity|]). lia.
Qed.

Lemma hex_byte (b : N) (s : string) (acc : N) :
  (b < 256)%N ->
  uuid.hex (String (uuid.hexdigit (b / 16)) (String (uuid.hexdigit (b mod 16)) s))
           acc
  = uuid.hex s (acc * 256 + b)%N.
Proof.
  intros Hb. cbn [uuid.hex].
  rewrite !xval_hexdigit by (try apply N.Div0.div_lt_upper_bound; try apply N.mod_lt; lia).
  f_equal. pose proof (N.div_mod b 16 ltac:(lia)). lia.
Qed.

Lemma land_255 (x : N) : N.land x 255 = (x mod 256)%N.
Proof. change 255%N with (N.ones 8). now rewrite N.land_ones. Qed.

Lemma byte_at_lt (u : UUID) (i : nat) : (uuid.byte_at u i < 256)%N.
Proof. unfold uuid.byte_at. rewrite land_255. now apply N.mod_lt. Qed.

Lemma shiftr_step (u k k' : N) :
  k' = (k + 8)%N ->
  (N.shiftr u k' * 256 + N.land (N.shiftr u k) 255 = N.shiftr u k)%N.
Proof.
  intros ->. rewrite land_255, <- N.shiftr_shiftr.
  rewrite (N.shiftr_div_pow2 _ 8). change (2 ^ 8)%N with 256%N.
  pose proof (N.div_mod (N.shiftr u k) 256 ltac:(lia)). lia.
Qed.

(** The string of a UUID parses to this UUID. *)
Lemma Parse_to_string (u : UUID) :
  (u < 2 ^ 128)%N -> uuid.Parse (uuid.to_string u) = Some u.
Proof.
  intros Hu.
  cbv -[uuid.byte_at uuid.hexdigit uuid.hex N.div N.modulo].
  rewrite !hex_byte by apply byte_at_lt.
  cbn [uuid.hex]. f_equal.
  repeat match goal with
  | |- context [uuid.byte_at u ?i] =>
      let k := eval vm_compute in (8 * N.of_nat (15 - i))%N in
      change (uuid.byte_at u i) with (N.land (N.shiftr u k) 255)
  end.
  change (0 * 256)%N with 0%N. rewrite N.add_0_l.
  assert (N.land (N.shiftr u 120) 255 = N.shiftr u 120) as ->.
  { rewrite land_255. apply N.mod_small. rewrite N.shiftr_div_pow2.
    apply N.Div0.div_lt_upper_bound.
    change (2 ^ 120 * 256)%N with (2 ^ 128)%N. exact Hu. }
  rewrite !shiftr_step by reflexivity.
  apply N.shiftr_0_r.
Qed.

Lemma to_string_inj (u v : UUID) :
  (u < 2 ^ 128)%N -> (v < 2 ^ 128)%N ->
  uuid.to_string u = uuid.to_string v -> u = v.
Proof.
  intros Hu Hv Heq. apply Parse_to_string in Hu, Hv.
  rewrite Heq in Hu. congruence.
Qed.

(** ** Keys of different users *)

Lemma length_to_string (u : UUID) : String.length (uuid.to_string u) = 36%nat.
Proof. cbv -[uuid.byte_at uuid.hexdigit N.div N.modulo]. reflexivity. Qed.


Lemma prefix_other (a b x y : string) :
  String.length a = String.length b -> a <> b ->
  String.prefix (a +:+ x) (b +:+ y) = false.
Proof.
  revert b. induction a as [|c a IH]; intros [|d b] Hlen Hne;
    try discriminate; [done|].
  rewrite !append_cons. cbn [String.prefix].
  destruct (Ascii.eqb_spec c d) as [->|Hcd].
  - destruct (ascii_dec d d); [|done]. injection Hlen as Hlen.
    apply IH; [done|]. intros ->. done.
  - destruct (ascii_dec c d); [done|reflexivity].
Qed.


Lemma other_user_key (U u : UUID) (status : string) (page limit : Z) :
  (U < 2 ^ 128)%N -> (u < 2 ^ 128)%N -> u <> U ->
  strings.HasPrefix (cache_aware.cacheKeyTasks u status page limit)
                    (cache_aware.pattern_prefix U) = false.
Proof.
  intros HU Hu Hne.
  unfold strings.HasPrefix, cache_aware.cacheKeyTasks,
    cache_aware.pattern_prefix.
  rewrite prefix_app_same. apply prefix_other.
  - now rewrite !length_to_string.
  - intros Heq. apply to_string_inj in Heq; done.
Qed.

(** ** Lists of a user after the writes of another *)

Lemma filter_through {A} (f g : A -> bool) (l : list A) :
  (forall x, f x = true -> g x = true) ->
  List.filter f (List.filter g l) = List.filter f l.
Proof.
  intros Hfg. induction l as [|x l IH]; [done|]. cbn.
  destruct (g x) eqn:Hg; cbn.
  - now rewrite IH.
  - destruct (f x) eqn:Hf; [|exact IH]. apply Hfg in Hf. congruence.
Qed.

Lemma others_query (U u : UUID) (status : string) (db db' : DB) :
  u <> U ->
  rows_of_others U db' = rows_of_others U db ->
  List.filter (where_user_status u status) (tasks db')
  = List.filter (where_user_status u status) (tasks db).
Proof.
  intros Hne Hrows. unfold rows_of_others in Hrows.
  assert (forall x, where_user_status u status x = true ->
                    negb (N.eqb (UserID x) U) = true) as Himp.
  { intros x Hx. apply where_user_status_owner in Hx.
    apply negb_true_iff, N.eqb_neq. congruence. }
  rewrite <- (filter_through _ _ (tasks db') Himp).
  rewrite <- (filter_through _ _ (tasks db) Himp).
  now rewrite Hrows.
Qed.

Lemma from_store_frame (u : UUID) (status : string) (page limit : Z)
    (db db' : DB) :
  fault db' = fault db ->
  List.filter (where_user_status u status) (tasks db')
  = List.filter (where_user_status u status) (tasks db) ->
  cache_aware.from_store u status page limit db'
  = cache_aware.from_store u status page limit db.
Proof.
  intros Hfault Hrows. unfold cache_aware.from_store, GetAll.
  now rewrite Hfault, Hrows.
Qed.

Lemma Create_frame fresh now task db :
  fault (Create fresh now task db).2 = fault db
  /\ rows_of_others (UserID task) (Create fresh now task db).2
     = rows_of_others (UserID task) db.
Proof.
  unfold Create. destruct (fault db) eqn:Hf; [done|].
  match goal with |- context [if ?c then _ else _] => destruct c end;
    [|done].
  cbn. split; [done|]. unfold rows_of_others. cbn.
  rewrite List.filter_app. cbn.
  match goal with |- context [negb (N.eqb ?a ?b)] =>
    assert (N.eqb a b = true) as -> end.
  { apply N.eqb_eq. unfold BeforeCreate.
    repeat match goal with
    | |- context [if ?c then _ else _] => destruct c
    end; reflexivity. }
  cbn. apply app_nil_r.
Qed.

Lemma Delete_fault id u db : fault (Delete id u db).2 = fault db.
Proof.
  unfold Delete. destruct (fault db) eqn:Hf; [done|].
  destruct (length _ =? 0)%nat; done.
Qed.

(** A write of [U] and the store as the lists of another user see it. *)
Lemma run_write_frame {V} (U u : UUID) (w : cache_aware.write)
    (st : @cache_aware.State V) (status : string) (page limit : Z) :
  u <> U ->
  cache_aware.from_store u status page limit
    (cache_aware.db (cache_aware.run_write U w st).2)
  = cache_aware.from_store u status page limit (cache_aware.db st).
Proof.
  intros Hne. apply from_store_frame.
  - destruct w as [fresh now req|now taskID req|taskID]; cbn.
    + unfold cache_aware.CreateTask.
      match goal with |- context [Create ?f ?n ?t ?d] =>
        pose proof (Create_frame f n t d) as [Hf _];
        destruct (Create f n t d) as [[?|?] ?] end; exact Hf.
    + unfold cache_aware.UpdateTask.
      destruct (GetByID taskID U (cache_aware.db st)) as [old|]; [|done].
      destruct (apply_request req old) as [task'|]; [|done].
      pose proof (Update_returns now task' (cache_aware.db st)) as [Hf _].
      destruct (Update now task' (cache_aware.db st)) as [[?|?] ?]; exact Hf.
    + unfold cache_aware.DeleteTask.
      pose proof (Delete_fault taskID U (cache_aware.db st)) as Hf.
      destruct (Delete taskID U (cache_aware.db st)) as [[?|?] ?]; exact Hf.
  - apply (others_query U); [done|].
    destruct w as [fresh now req|now taskID req|taskID]; cbn.
    + unfold cache_aware.CreateTask.
      match goal with |- context [Create ?f ?n ?t ?d] =>
        pose proof (Create_frame f n t d) as [_ Hr];
        destruct (Create f n t d) as [[?|?] ?] end; exact Hr.
    + unfold cache_aware.UpdateTask.
      destruct (GetByID taskID U (cache_aware.db st)) as [old|] eqn:Hold;
        [|done].
      destruct (apply_request req old) as [task'|] eqn:Happly; [|done].
      apply GetByID_found in Hold as (_ & _ & Hu).
      apply apply_request_fields in Happly as (_ & Hu' & _).
      pose proof (Update_frame U now task' (cache_aware.db st)
                    ltac:(congruence)) as Hr.
      destruct (Update now task' (cache_aware.db st)) as [[?|?] ?]; exact Hr.
    + unfold cache_aware.DeleteTask.
      pose proof (Delete_frame U taskID (cache_aware.db st)) as Hr.
      destruct (Delete taskID U (cache_aware.db st)) as [[?|?] ?]; exact Hr.
Qed.

Lemma run_write_cache {V} (U : UUID) (w : cache_aware.write)
    (st : @cache_aware.State V) :
  cache_aware.cache (cache_aware.run_write U w st).2 = cache_aware.cache st
  \/ cache_aware.cache (cache_aware.run_write U w st).2
     = cache_aware.invalidateUserTasksCache U (cache_aware.cache st).
Proof.
  destruct w as [fresh now req|now taskID req|taskID]; cbn.
  - unfold cache_aware.CreateTask.
    match goal with |- context [Create ?f ?n ?t ?d] =>
      destruct (Create f n t d) as [[?|?] ?] end; auto.
  - unfold cache_aware.UpdateTask.
    destruct (GetByID _ _ _); [|auto].
    destruct (apply_request _ _); [|auto].
    destruct (Update _ _ _) as [[?|?] ?]; auto.
  - unfold cache_aware.DeleteTask.
    destruct (Delete _ _ _) as [[?|?] ?]; auto.
Qed.

(** X11: a create, update or delete of user [U], through the service with
    the cache, leaves the cached lists of every other user in the cache,
    and leaves what the store answers to the list queries of every other
    user as it was: the lists that stay cached stay right. *)
Theorem write_spares_other_users {V : Type} (U u : UUID)
    (w : cache_aware.write) (st : @cache_aware.State V)
    (status : string) (page limit : Z) :
  (U < 2 ^ 128)%N -> (u < 2 ^ 128)%N -> u <> U ->
  let st' := (cache_aware.run_write U w st).2 in
  cache_aware.cache st' !! cache_aware.cacheKeyTasks u status page limit
  = cache_aware.cache st !! cache_aware.cacheKeyTasks u status page limit
  /\ cache_aware.from_store u status page limit (cache_aware.db st')
     = cache_aware.from_store u status page limit (cache_aware.db st).
Proof.
  intros HU Hu Hne st'. subst st'. split; [|now apply run_write_frame].
  destruct (run_write_cache U w st) as [->| ->]; [done|].
  apply invalidate_lookup_other, other_user_key; done.
Qed.


Lemma write_spares_other_users_witness :
  (alice < 2 ^ 128)%N /\ (bob < 2 ^ 128)%N /\ bob <> alice
  /\ cache_aware.cache
       (cache_aware.run_write alice (cache_aware.WDelete 77)
          (cache_aware.GetTasks Some Some bob "" 1 10 listed_state).2).2
     !! cache_aware.cacheKeyTasks bob "" 1 10
     = cache_aware.cache
         (cache_aware.GetTasks Some Some bob "" 1 10 listed_state).2
       !! cache_aware.cacheKeyTasks bob "" 1 10.
Proof.
  assert (alice < 2 ^ 128)%N as H1 by (vm_compute; reflexivity).
  assert (bob < 2 ^ 128)%N as H2 by (vm_compute; reflexivity).
  assert (bob <> alice) as H3 by (vm_compute; discriminate).
  split; [exact H1|]. split; [exact H2|]. split; [exact H3|].
  apply (write_spares_other_users alice bob (cache_aware.WDelete 77)
           (cache_aware.GetTasks Some Some bob "" 1 10 listed_state).2
           "" 1 10 H1 H2 H3).
Defined.


(** ** A created task at its URL *)




(** * Numbers in the environment *)

Lemma digits_string_of_uint (d : Decimal.uint) (n : N) :
  strconv.digits (NilEmpty.string_of_uint d) (Z.of_N n)
  = Some (Z.of_N (numeral_from d n)).
Proof.
  revert n. induction d as [|d IH|d IH|d IH|d IH|d IH|d IH|d IH|d IH|d IH|d IH];
    intros n; [destruct n; reflexivity|..];
    cbn [NilEmpty.string_of_uint strconv.digits];
    match goal with
    | |- context [strconv.digit_of ?c] =>
        let v := eval vm_compute in (strconv.digit_of c) in
        change (strconv.digit_of c) with v
    end; cbv iota beta;
    destruct n as [|p];
    match goal with
    | |- strconv.digits _ ?acc = Some (Z.of_N ?r) =>
        let r' := eval cbn [numeral_from N.of_uint Pos.of_uint Pos.of_uint_acc] in r in
        change r with r'
    end.
  all: match goal with
       | |- strconv.digits _ ?acc = Some (Z.of_N (Pos.of_uint _)) =>
           replace acc with (Z.of_N 0) by lia; exact (IH 0%N)
       | |- strconv.digits _ ?acc
            = Some (Z.of_N (N.pos (Pos.of_uint_acc _ ?q))) =>
           replace acc with (Z.of_N (N.pos q)) by lia; exact (IH (N.pos q))
       end.
Qed.

Lemma digits_to_uint (p : positive) :
  strconv.digits (NilEmpty.string_of_uint (Pos.to_uint p)) 0 = Some (Z.pos p).
Proof.
  change 0 with (Z.of_N 0).
  rewrite (digits_string_of_uint (Pos.to_uint p) 0). cbn [numeral_from].
  unfold N.of_uint. now rewrite DecimalPos.Unsigned.of_to.
Qed.

(** The numeral of a positive number starts with a digit. *)
Lemma string_of_to_uint (p : positive) :
  exists c s, NilEmpty.string_of_uint (Pos.to_uint p) = String c s
              /\ Ascii.eqb c "-" = false /\ Ascii.eqb c "+" = false
              /\ NilZero.string_of_uint (Pos.to_uint p) = String c s.
Proof.
  pose proof (DecimalPos.Unsigned.to_uint_nonnil p) as Hnn.
  destruct (Pos.to_uint p); [done|..]; cbn; eauto 10.
Qed.

(** [strconv.Atoi] reads back what [strconv.Itoa] wrote. *)
Lemma Atoi_Itoa (z : Z) :
  MinInt64 <= z <= MaxInt64 -> strconv.Atoi (strconv.Itoa z) = (z, true).
Proof.
  unfold MinInt64, MaxInt64. intros Hz. unfold strconv.Itoa.
  destruct z as [|p|p]; [reflexivity|..]; cbn [Z.to_int NilZero.string_of_int].
  - destruct (string_of_to_uint p) as (c & s & Hs & Hm & Hp & ->).
    unfold strconv.Atoi. rewrite Hm, Hp. cbn [orb].
    rewrite <- Hs, digits_to_uint.
    destruct (Z.leb_spec (Z.pos p) MaxInt64) as [_|H];
      [done|unfold MaxInt64 in H; lia].
  - destruct (string_of_to_uint p) as (c & s & Hs & _ & _ & ->).
    unfold strconv.Atoi. cbn [Ascii.eqb Bool.eqb orb andb].
    rewrite <- Hs, digits_to_uint.
    destruct (Z.leb_spec (Z.pos p) (2 ^ 63 - 1)); [done|].
    destruct (Z.eqb_spec (Z.pos p) (2 ^ 63)) as [Heq|]; [|lia].
    unfold MinInt64. f_equal. lia.
Qed.

Lemma Itoa_nonempty (z : Z) : strconv.Itoa z <> "".
Proof.
  unfold strconv.Itoa.
  destruct z as [|p|p]; [done|..]; cbn [Z.to_int NilZero.string_of_int].
  - destruct (string_of_to_uint p) as (c & s & _ & _ & _ & ->). done.
  - done.
Qed.

(** X14: an integer setting whose variable holds the decimal numeral of a
    number of the range of [int] is loaded as that number, whatever the
    .env file says; a variable that neither the environment nor the file
    has, or that is empty in the environment, gives the default: 100
    requests per 60 seconds. *)
Theorem Load_reads_the_rate_limit (file : option (gmap string string))
    (env : gmap string string) :
  (forall n, MinInt64 <= n <= MaxInt64 ->
     env !! "RATE_LIMIT_REQUESTS" = Some (strconv.Itoa n) ->
     config.RateLimitRequests (config.Load file env) = n)
  /\ (forall w, MinInt64 <= w <= MaxInt64 ->
        env !! "RATE_LIMIT_WINDOW" = Some (strconv.Itoa w) ->
        config.RateLimitWindow (config.Load file env) = w)
  /\ (config.dotenv file env !! "RATE_LIMIT_REQUESTS" = None
      \/ env !! "RATE_LIMIT_REQUESTS" = Some "" ->
      config.RateLimitRequests (config.Load file env) = 100)
  /\ (config.dotenv file env !! "RATE_LIMIT_WINDOW" = None
      \/ env !! "RATE_LIMIT_WINDOW" = Some "" ->
      config.RateLimitWindow (config.Load file env) = 60).
Proof.
  assert (forall key v, env !! key = Some v ->
                        config.dotenv file env !! key = Some v) as Henv.
  { intros key v Hv. unfold config.dotenv. destruct file; [|done].
    now apply lookup_union_Some_l. }
  assert (forall key n d, MinInt64 <= n <= MaxInt64 ->
            env !! key = Some (strconv.Itoa n) ->
            config.getEnvAsInt (config.dotenv file env) key d = n) as Hread.
  { intros key n d Hn Hv. unfold config.getEnvAsInt, config.getEnv,
      config.Getenv. rewrite (Henv _ _ Hv). cbn [default id].
    destruct (String.eqb_spec (strconv.Itoa n) "") as [He|_];
      [now apply Itoa_nonempty in He|].
    now rewrite Atoi_Itoa. }
  assert (forall key d,
            config.dotenv file env !! key = None \/ env !! key = Some "" ->
            config.getEnvAsInt (config.dotenv file env) key d = d) as Hdef.
  { intros key d [Hv|Hv]; unfold config.getEnvAsInt, config.getEnv,
      config.Getenv; [rewrite Hv|rewrite (Henv _ _ Hv)]; reflexivity. }
  split; [|split; [|split]].
  - intros n Hn Hv. now apply Hread.
  - intros w Hw Hv. now apply Hread.
  - apply Hdef.
  - apply Hdef.
Qed.

Lemma Load_reads_the_rate_limit_witness :
  let env : gmap string string := {[ "RATE_LIMIT_REQUESTS" := "3" ]} in
  let file : gmap string string :=
    {[ "RATE_LIMIT_REQUESTS" := "7"; "RATE_LIMIT_WINDOW" := "" ]} in
  MinInt64 <= 3 <= MaxInt64
  /\ env !! "RATE_LIMIT_REQUESTS" = Some (strconv.Itoa 3)
  /\ config.RateLimitRequests (config.Load (Some file) env) = 3.
Proof.
  cbv zeta.
  assert (MinInt64 <= 3 <= MaxInt64) as H1 by (split; vm_compute; discriminate).
  assert (({[ "RATE_LIMIT_REQUESTS" := "3" ]} : gmap string string)
            !! "RATE_LIMIT_REQUESTS" = Some (strconv.Itoa 3)) as H2
    by (vm_compute; reflexivity).
  split; [exact H1|]. split; [exact H2|].
  destruct (Load_reads_the_rate_limit
              (Some {[ "RATE_LIMIT_REQUESTS" := "7"; "RATE_LIMIT_WINDOW" := "" ]})
              {[ "RATE_LIMIT_REQUESTS" := "3" ]}) as (Hn & _).
  apply (Hn 3 H1 H2).
Defined.

(** * The chain of handlers on the task routes *)

Lemma append_nil_r (s : string) : s +:+ "" = s.
Proof. induction s as [|c s IH]; [done|]. now rewrite append_cons, IH. Qed.

(** ** The Authorization header *)

Lemma split_without (sep s cur : string) :
  router.occurs sep s = false ->
  strings.split_from sep s 0 cur = [cur +:+ s].
Proof.
  revert cur. induction s as [|c s IH]; intros cur Hocc.
  - cbn. now rewrite append_nil_r.
  - cbn [router.occurs] in Hocc. apply orb_false_iff in Hocc as [Hp Hocc].
    cbn [strings.split_from]. rewrite Hp, IH by done.
    now rewrite append_assoc.
Qed.

Lemma split_bearer (pre tok cur : string) :
  router.free_of "B" pre = true ->
  strings.split_from "Bearer " (pre +:+ "Bearer " +:+ tok) 0 cur
  = (cur +:+ pre) :: strings.split_from "Bearer " tok 0 "".
Proof.
  revert cur. induction pre as [|c pre IH]; intros cur Hfree.
  - change ("" +:+ ?x) with x. rewrite !append_cons.
    change ("" +:+ tok) with tok. rewrite append_nil_r.
    cbn [strings.split_from String.prefix String.length Nat.sub].
    repeat (destruct (ascii_dec _ _); [|done]).
    destruct tok; reflexivity.
  - cbn [router.free_of] in Hfree.
    apply andb_true_iff in Hfree as [Hc Hfree].
    apply negb_true_iff in Hc. apply Ascii.eqb_neq in Hc.
    rewrite append_cons. cbn [strings.split_from String.prefix].
    destruct (ascii_dec "B" c) as [Heq|_]; [congruence|].
    rewrite IH by done. now rewrite append_assoc.
Qed.

Lemma bearer_nonempty (pre tok : string) : pre +:+ "Bearer " +:+ tok <> "".
Proof. destruct pre; [|done]. change ("" +:+ ?x) with x. now rewrite append_cons. Qed.



(** ** Headers of the responses *)

Lemma Method_of_task (e : router.endpoint) :
  String.eqb (router.Method (router.Task e)) "OPTIONS" = false.
Proof. destruct e; reflexivity. Qed.

(** The limiter sets its three headers or none. *)
Lemma RateLimitMiddleware_headers client cfg clientIP now net name :
  name <> "X-RateLimit-Limit" -> name <> "X-RateLimit-Remaining" ->
  name <> "X-RateLimit-Reset" ->
  middleware.header
    (middleware.RateLimitMiddleware client cfg clientIP now net).1 name = None.
Proof.
  intros H1 H2 H3. unfold middleware.RateLimitMiddleware.
  destruct client as [r|]; [|done].
  destruct net; [|done|];
    destruct (config.RateLimitRequests cfg <=? _); try done.
  cbn. now rewrite !lookup_insert_ne.
Qed.

Lemma AuthMiddleware_headers ValidateToken jwtSecret authHeader name :
  middleware.header
    (middleware.AuthMiddleware ValidateToken jwtSecret authHeader) name = None.
Proof.
  unfold middleware.AuthMiddleware.
  destruct (String.eqb authHeader ""); [done|].
  destruct (negb _); [done|].
  destruct (ValidateToken _) as [payload|msg]; [|done].
  destruct (uuid.Parse _); done.
Qed.

Lemma header_of_outcome (o : middleware.outcome) :
  middleware.header o
  = fun name => match router.of_outcome o with
                | router.Continue h _ => h !! name
                | router.Stop _ _ h => h !! name
                end.
Proof. destruct o; reflexivity. Qed.

(** The headers of the response to a request for a task route: those of
    the limiter and of the authentication over the ten fixed ones. *)
Lemma serve_http_headers ValidateToken cfg now net req w e :
  router.Kind req = router.Task e ->
  exists h3 h4,
    router.Header (router.serve_http ValidateToken cfg now net req w).1
    = h4 ∪ (h3 ∪ (router.security_headers ∪ router.cors_headers))
    /\ (forall name, h4 !! name = None)
    /\ (forall name, name <> "X-RateLimit-Limit" ->
          name <> "X-RateLimit-Remaining" -> name <> "X-RateLimit-Reset" ->
          h3 !! name = None).
Proof.
  intros Hk. unfold router.serve_http. rewrite Hk.
  unfold router.CORSMiddleware. rewrite Method_of_task.
  cbn [router.SecurityHeadersMiddleware].
  pose proof (RateLimitMiddleware_headers (router.redis w) cfg
                (router.ClientIP req) now net) as Hrate.
  pose proof (AuthMiddleware_headers ValidateToken (config.JWTSecret cfg)
                (router.Authorization req)) as Hauth.
  rewrite header_of_outcome in Hrate, Hauth.
  destruct (middleware.RateLimitMiddleware _ _ _ _ _) as [o redis'].
  cbn [fst] in Hrate.
  destruct (router.of_outcome o) as [h3 keys3|status3 content3 h3].
  - destruct (router.of_outcome (middleware.AuthMiddleware _ _ _))
      as [h4 keys4|status4 content4 h4].
    + destruct (router.handle e _ _) as [resp d']. cbn. eauto.
    + cbn. eauto.
  - exists h3, ∅. cbn. split; [now rewrite (left_id ∅ _)|].
    split; [intros; apply lookup_empty|exact Hrate].
Qed.

(** X16: every response carries the four headers of CORSMiddleware; the
    response to a request for a task route carries the six security
    headers as well, also when the limiter or the authentication refuses
    the request; a request with the method OPTIONS is answered 204 with
    the CORS headers alone, before the limiter counts it and whatever its
    Authorization header is. *)
Theorem responses_carry_the_headers
    (ValidateToken : string -> result token.Payload) (cfg : config.Config)
    (now : Time) (net : middleware.round_trips) (req : router.Request)
    (w : router.World) :
  let out := router.serve_http ValidateToken cfg now net req w in
  (forall name v, router.cors_headers !! name = Some v ->
                  router.Header out.1 !! name = Some v)
  /\ (router.Kind req <> router.Options ->
      forall name v, router.security_headers !! name = Some v ->
                     router.Header out.1 !! name = Some v)
  /\ (router.Kind req = router.Options ->
      out = ({| router.Status := 204; router.Header := router.cors_headers;
                router.Content := None |}, w)).
Proof.
  cbv zeta. destruct (router.Kind req) as [|e] eqn:Hk.
  - assert (router.serve_http ValidateToken cfg now net req w
            = ({| router.Status := 204; router.Header := router.cors_headers;
                  router.Content := None |}, w)) as ->
      by (unfold router.serve_http; now rewrite Hk).
    split; [done|]. split; done.
  - destruct (serve_http_headers ValidateToken cfg now net req w e Hk)
      as (h3 & h4 & -> & Hh4 & Hh3).
    split; [|split; [|done]].
    + intros name v Hv. rewrite lookup_union_r by apply Hh4.
      unfold router.cors_headers in Hv.
      repeat (apply lookup_insert_Some in Hv as [[<- <-]|[_ Hv]];
              [rewrite lookup_union_r by (now apply Hh3); reflexivity|]).
      now rewrite lookup_empty in Hv.
    + intros _ name v Hv. rewrite lookup_union_r by apply Hh4.
      unfold router.security_headers in Hv.
      repeat (apply lookup_insert_Some in Hv as [[<- <-]|[_ Hv]];
              [rewrite lookup_union_r by (now apply Hh3); reflexivity|]).
      now rewrite lookup_empty in Hv.
Qed.

(** ** The rows a request can change *)

Lemma GetTasks_store (u : UUID) (status : string) (page limit : Z) (d : DB) :
  (store_only.GetTasks u status page limit d).2 = d.
Proof.
  unfold store_only.GetTasks. destruct (negb _ && negb _); [done|].
  destruct (GetAll _ _ _ _ _) as [[found total]|]; done.
Qed.

Lemma GetTask_store (id u : UUID) (d : DB) :
  (store_only.GetTask id u d).2 = d.
Proof. unfold store_only.GetTask. destruct (GetByID _ _ _); done. Qed.

(** A handler that runs for [u] leaves the rows of the other users. *)
Lemma handle_frame (e : router.endpoint) (u : UUID) (d : DB) :
  rows_of_others u (router.handle e (Some (UUIDValue u)) d).2
  = rows_of_others u d.
Proof.
  destruct e as [fresh now body|q_status q_page q_limit|id|now id body|id];
    cbn [router.handle].
  - unfold handlers.CreateTask.
    destruct (handlers.bindCreate body) as [req|]; [|done].
    case_bool_decide; [|done].
    cbn [services.CreateTask taskService]. unfold store_only.CreateTask.
    match goal with |- context [Create ?f ?n ?t ?d] =>
      pose proof (Create_frame f n t d) as [_ Hr];
      destruct (Create f n t d) as [[?|?] ?] end; exact Hr.
  - unfold handlers.GetTasks. cbn [services.GetTasks taskService].
    match goal with |- context [store_only.GetTasks ?a ?b ?c ?x ?y] =>
      pose proof (GetTasks_store a b c x y) as Hs;
      destruct (store_only.GetTasks a b c x y) as [[?|?] ?] end;
      cbn in Hs |- *; now subst.
  - unfold handlers.GetTask. destruct (uuid.Parse id) as [taskID|]; [|done].
    cbn [services.GetTask taskService].
    pose proof (GetTask_store taskID u d) as Hs.
    destruct (store_only.GetTask taskID u d) as [[?|?] ?];
      cbn in Hs |- *; now subst.
  - unfold handlers.UpdateTask.
    destruct (uuid.Parse id) as [taskID|]; [|done].
    destruct (handlers.bindUpdate body) as [req|]; [|done].
    case_bool_decide; [|done].
    cbn [services.UpdateTask taskService]. unfold store_only.UpdateTask.
    destruct (GetByID taskID u d) as [old|] eqn:Hold; [|done].
    destruct (apply_request req old) as [task'|] eqn:Happly; [|done].
    apply GetByID_found in Hold as (_ & _ & Hu).
    apply apply_request_fields in Happly as (_ & Hu' & _).
    pose proof (Update_frame u now task' d ltac:(congruence)) as Hr.
    destruct (Update now task' d) as [[?|?] ?]; exact Hr.
  - unfold handlers.DeleteTask.
    destruct (uuid.Parse id) as [taskID|]; [|done].
    cbn [services.DeleteTask taskService]. unfold store_only.DeleteTask.
    pose proof (Delete_frame u taskID d) as Hr.
    destruct (Delete taskID u d) as [[?|?] ?]; exact Hr.
Qed.

Lemma rate_limiter_status client cfg clientIP now net :
  match (middleware.RateLimitMiddleware client cfg clientIP now net).1 with
  | middleware.Next _ _ => True
  | middleware.Abort resp _ => Code resp = 429
  end.
Proof.
  unfold middleware.RateLimitMiddleware.
  destruct client as [r|]; [|done].
  destruct net; [|done|];
    destruct (config.RateLimitRequests cfg <=? _); done.
Qed.

Lemma AuthMiddleware_status ValidateToken jwtSecret authHeader :
  match middleware.AuthMiddleware ValidateToken jwtSecret authHeader with
  | middleware.Next _ keys => exists u, keys = {[ "user_id" := UUIDValue u ]}
  | middleware.Abort resp _ => Code resp = 401
  end.
Proof.
  unfold middleware.AuthMiddleware.
  destruct (String.eqb authHeader ""); [done|].
  destruct (negb _); [done|].
  destruct (ValidateToken _) as [payload|msg]; [|done].
  destruct (uuid.Parse _); [eauto|done].
Qed.

(** X17: a request changes rows of one user at most, the user its token
    names: the rows of every other user are after the request what they
    were before.  A request that the authentication does not let pass
    changes no row, and its status is 204 (OPTIONS), 429 (limiter) or
    401. *)
Theorem requests_change_only_the_callers_rows
    (ValidateToken : string -> result token.Payload) (cfg : config.Config)
    (now : Time) (net : middleware.round_trips) (req : router.Request)
    (w : router.World) :
  let out := router.serve_http ValidateToken cfg now net req w in
  match router.authenticated ValidateToken cfg req with
  | Some u => rows_of_others u (router.db out.2) = rows_of_others u (router.db w)
  | None =>
      router.db out.2 = router.db w
      /\ (router.Status out.1 = 204 \/ router.Status out.1 = 429
          \/ router.Status out.1 = 401)
  end.
Proof.
  cbv zeta. unfold router.serve_http, router.authenticated.
  destruct (router.Kind req) as [|e] eqn:Hk.
  - cbn. destruct (middleware.AuthMiddleware _ _ _) as [h keys|resp h];
      [destruct (keys !! "user_id") as [[u|]|]|]; auto.
  - unfold router.CORSMiddleware. rewrite Method_of_task.
    cbn [router.SecurityHeadersMiddleware].
    pose proof (rate_limiter_status (router.redis w) cfg (router.ClientIP req)
                  now net) as Hrate.
    destruct (middleware.RateLimitMiddleware _ _ _ _ _) as [o redis'].
    cbn [fst] in Hrate.
    destruct o as [h3 keys3|resp3 h3]; cbn [router.of_outcome].
    + pose proof (AuthMiddleware_status ValidateToken (config.JWTSecret cfg)
                    (router.Authorization req)) as Hauth.
      destruct (middleware.AuthMiddleware _ _ _) as [h4 keys4|resp4 h4];
        cbn [router.of_outcome].
      * destruct Hauth as (u & ->). rewrite lookup_singleton_eq.
        pose proof (handle_frame e u (router.db w)) as Hf.
        destruct (router.handle e _ _) as [resp d']. exact Hf.
      * cbn. auto.
    + cbn. destruct (middleware.AuthMiddleware _ _ _) as [h keys|resp h];
        [destruct (keys !! "user_id") as [[u|]|]|]; auto.
Qed.

(** X18: a request for a task route whose Authorization header is
    ["Bearer "] and a token that validates, with a payload that names the
    user [u], is answered by the handler of the route run for [u] (status,
    body and database), unless the limiter answers it with 429; without a
    Redis client the limiter never does. *)
Theorem request_with_token_is_handled
    (ValidateToken : string -> result token.Payload) (cfg : config.Config)
    (now : Time) (net : middleware.round_trips) (req : router.Request)
    (w : router.World) (e : router.endpoint) (tok : string)
    (payload : token.Payload) (u : UUID) :
  router.Kind req = router.Task e ->
  router.Authorization req = "Bearer " +:+ tok ->
  router.occurs "Bearer " tok = false ->
  ValidateToken tok = Ok payload ->
  uuid.Parse (token.AuthId payload) = Some u ->
  let out := router.serve_http ValidateToken cfg now net req w in
  let handled := router.handle e (Some (UUIDValue u)) (router.db w) in
  router.authenticated ValidateToken cfg req = Some u
  /\ ((router.Status out.1 = 429 /\ router.db out.2 = router.db w
       /\ router.redis w <> None)
      \/ (router.Status out.1 = Code handled.1
          /\ router.Content out.1 = Some (Body handled.1)
          /\ router.db out.2 = handled.2)).
Proof.
  intros Hk Hh Htok Hv Hp. cbv zeta.
  assert (middleware.AuthMiddleware ValidateToken (config.JWTSecret cfg)
            (router.Authorization req)
          = middleware.Next ∅ {[ "user_id" := UUIDValue u ]}) as Hauth.
  { rewrite Hh. change ("Bearer " +:+ tok) with ("" +:+ "Bearer " +:+ tok).
    unfold middleware.AuthMiddleware.
    destruct (String.eqb_spec ("" +:+ "Bearer " +:+ tok) "") as [He|_];
      [now apply bearer_nonempty in He|].
    unfold strings.Split. rewrite split_bearer by done.
    rewrite split_without by done. cbn [length Nat.eqb negb nth].
    change ("" +:+ tok) with tok. now rewrite Hv, Hp. }
  split.
  - unfold router.authenticated. rewrite Hauth. now rewrite lookup_singleton_eq.
  - unfold router.serve_http. rewrite Hk.
    unfold router.CORSMiddleware. rewrite Method_of_task.
    cbn [router.SecurityHeadersMiddleware].
    pose proof (rate_limiter_status (router.redis w) cfg (router.ClientIP req)
                  now net) as Hrate.
    assert (router.redis w = None ->
            (middleware.RateLimitMiddleware (router.redis w) cfg
               (router.ClientIP req) now net).1 = middleware.Next ∅ ∅) as Hnone
      by (intros ->; reflexivity).
    destruct (middleware.RateLimitMiddleware _ _ _ _ _) as [o redis'].
    cbn [fst] in Hrate, Hnone.
    destruct o as [h3 keys3|resp3 h3]; cbn [router.of_outcome].
    + right. rewrite Hauth. cbn [router.of_outcome].
      rewrite lookup_singleton_eq.
      destruct (router.handle e _ _) as [resp d']. done.
    + left. cbn. split; [done|]. split; [done|].
      intros Hn. now specialize (Hnone Hn).
Qed.

Lemma request_with_token_is_handled_witness :
  let VT := fun s : string =>
    if String.eqb s "t0k"
    then Ok {| token.AuthId := "0000000000000000000000000000000a";
               token.Exp := 0 |}
    else Err "bad token" in
  let req := {| router.Kind := router.Task (router.GetTaskByID id77);
                router.ClientIP := "203.0.113.7";
                router.Authorization := "Bearer t0k" |} in
  let w := {| router.redis := None; router.db := cross_db |} in
  router.occurs "Bearer " "t0k" = false
  /\ uuid.Parse "0000000000000000000000000000000a" = Some alice
  /\ router.authenticated VT cfg_3_per_60 req = Some alice
  /\ router.Status
       (router.serve_http VT cfg_3_per_60 2000 middleware.AllOk req w).1 = 200.
Proof.
  cbv zeta.
  assert (router.occurs "Bearer " "t0k" = false) as H1 by reflexivity.
  assert (uuid.Parse "0000000000000000000000000000000a" = Some alice) as H2
    by (vm_compute; reflexivity).
  split; [exact H1|]. split; [exact H2|].
  destruct (request_with_token_is_handled
              (fun s : string =>
                 if String.eqb s "t0k"
                 then Ok {| token.AuthId := "0000000000000000000000000000000a";
                            token.Exp := 0 |}
                 else Err "bad token")
              cfg_3_per_60 2000 middleware.AllOk
              {| router.Kind := router.Task (router.GetTaskByID id77);
                 router.ClientIP := "203.0.113.7";
                 router.Authorization := "Bearer t0k" |}
              {| router.redis := None; router.db := cross_db |}
              (router.GetTaskByID id77) "t0k"
              {| token.AuthId := "0000000000000000000000000000000a";
                 token.Exp := 0 |} alice
              eq_refl eq_refl H1 eq_refl H2) as [Hauth [Hlimited|Hhandled]].
  - split; [exact Hauth|]. destruct Hlimited as (_ & _ & Hredis). done.
  - split; [exact Hauth|]. destruct Hhandled as (-> & _). reflexivity.
Defined.

(** * Accounts *)

Lemma First_cons (cond : auth.User -> bool) (r : auth.User)
    (table : list auth.User) :
  auth.First cond (r :: table)
  = if cond r then
      match auth.First cond table with
      | Some a => if (auth.ID a <? auth.ID r)%N then Some a else Some r
      | None => Some r
      end
    else auth.First cond table.
Proof. reflexivity. Qed.

Lemma First_Some (cond : auth.User -> bool) (table : list auth.User)
    (u : auth.User) :
  auth.First cond table = Some u -> In u table /\ cond u = true.
Proof.
  revert u. induction table as [|r table IH]; intros u; [done|].
  rewrite First_cons. destruct (cond r) eqn:Hr.
  - destruct (auth.First cond table) as [a|] eqn:Ha.
    + destruct (auth.ID a <? auth.ID r)%N; intros [= Heq]; subst u.
      * destruct (IH a eq_refl). split; [now right|done].
      * split; [now left|done].
    + intros [= Heq]. subst u. split; [now left|done].
  - intros Hu. destruct (IH u Hu). split; [now right|done].
Qed.

Lemma First_None (cond : auth.User -> bool) (table : list auth.User) :
  auth.First cond table = None -> forall u, In u table -> cond u = false.
Proof.
  induction table as [|r table IH]; [done|]. rewrite First_cons.
  destruct (cond r) eqn:Hr.
  - destruct (auth.First cond table) as [a|]; [|done].
    destruct (auth.ID a <? auth.ID r)%N; done.
  - intros Hn u [<-|Hu]; auto.
Qed.

Lemma First_last (cond : auth.User -> bool) (table : list auth.User)
    (x : auth.User) :
  (forall u, In u table -> cond u = false) -> cond x = true ->
  auth.First cond (table ++ [x])%list = Some x.
Proof.
  intros Hnone Hx. unfold auth.First. rewrite fold_right_app. cbn.
  rewrite Hx. induction table as [|r table IH]; [done|]. cbn.
  rewrite (Hnone r (or_introl eq_refl)). apply IH.
  intros u Hu. apply Hnone. now right.
Qed.

(** A lookup that fails on a database that answers: no row meets the
    condition. *)
Lemma lookup_miss (cond : auth.User -> bool) (db : auth.UserDB) (msg : string) :
  auth.fault db = None -> auth.lookup cond db = Err msg ->
  forall u, In u (auth.rows db) -> cond u = false.
Proof.
  intros Hf. unfold auth.lookup. rewrite Hf.
  destruct (auth.First cond (auth.rows db)) eqn:HF; [done|].
  intros _. now apply First_None.
Qed.

(** What a successful insert of [Register]'s literal gives. *)
Lemma Create_user accepts fresh now username email password db user' db' :
  auth.Create accepts fresh now
    {| auth.ID := uuid.Nil; auth.Username := username; auth.Email := email;
       auth.Password := password; auth.CreatedAt := zeroTime;
       auth.UpdatedAt := zeroTime |} db = (Ok user', db') ->
  auth.fault db = None /\ auth.fault db' = None
  /\ auth.rows db' = (auth.rows db ++ [user'])%list
  /\ user' = {| auth.ID := fresh; auth.Username := username;
                auth.Email := email; auth.Password := password;
                auth.CreatedAt := now; auth.UpdatedAt := now |}.
Proof.
  unfold auth.Create. destruct (auth.fault db); [done|].
  destruct (accepts _ _); [|done]. intros [= <- <-]. done.
Qed.

(** A registration that does not reach the insert, or whose insert is
    refused, leaves the table. *)
Lemma Create_refused accepts fresh now user db msg db' :
  auth.Create accepts fresh now user db = (Err msg, db') -> db' = db.
Proof.
  unfold auth.Create. destruct (auth.fault db); [now intros [= _ <-]|].
  destruct (accepts _ _); [done|now intros [= _ <-]].
Qed.

(** The steps of a registration that inserts its row. *)
Lemma Register_inserts accepts GenerateFromPassword GenerateToken
    cfg salt fresh now req db user' db' :
  (exists hash,
     auth.GetByEmail (auth.RegisterRequest.Email req) db
       = Err "user not found"
     /\ auth.GetByUsername (auth.RegisterRequest.Username req) db
        = Err "user not found"
     /\ GenerateFromPassword salt (auth.RegisterRequest.Password req)
          (config.BcryptCost cfg) = Ok hash
     /\ auth.Create accepts fresh now
          {| auth.ID := uuid.Nil;
             auth.Username := auth.RegisterRequest.Username req;
             auth.Email := auth.RegisterRequest.Email req;
             auth.Password := hash; auth.CreatedAt := zeroTime;
             auth.UpdatedAt := zeroTime |} db = (Ok user', db')) ->
  auth.fault db = None /\ auth.fault db' = None
  /\ auth.rows db' = (auth.rows db ++ [user'])%list
  /\ auth.ID user' = fresh
  /\ auth.Username user' = auth.RegisterRequest.Username req
  /\ auth.Email user' = auth.RegisterRequest.Email req
  /\ (forall u, In u (auth.rows db) ->
        auth.Email u <> auth.RegisterRequest.Email req
        /\ auth.Username u <> auth.RegisterRequest.Username req)
  /\ auth.Register accepts GenerateFromPassword GenerateToken cfg salt fresh
       now req db
     = match GenerateToken now fresh with
       | Err _ => (Failure (response.GeneralError "failed to generate token"), db')
       | Ok token => (Success (auth.auth_response token user'), db')
       end.
Proof.
  intros (hash & He & Hu & Hh & Hc).
  pose proof (Create_user _ _ _ _ _ _ _ _ _ Hc) as (Hf & Hf' & Hrows & Huser).
  split; [done|]. split; [done|]. split; [done|].
  subst user'. cbn. split; [done|]. split; [done|]. split; [done|]. split.
  - intros u Hin. split.
    + pose proof (lookup_miss _ _ _ Hf He u Hin) as Hm.
      now apply String.eqb_neq in Hm.
    + pose proof (lookup_miss _ _ _ Hf Hu u Hin) as Hm.
      now apply String.eqb_neq in Hm.
  - unfold auth.Register. rewrite He, Hu, Hh, Hc. reflexivity.
Qed.

(** The outcomes of a registration. *)
Lemma Register_cases accepts GenerateFromPassword GenerateToken
    cfg salt fresh now req db :
  (auth.Register accepts GenerateFromPassword GenerateToken cfg salt fresh
     now req db).2 = db
  \/ exists hash user' db',
       auth.GetByEmail (auth.RegisterRequest.Email req) db
         = Err "user not found"
       /\ auth.GetByUsername (auth.RegisterRequest.Username req) db
          = Err "user not found"
       /\ GenerateFromPassword salt (auth.RegisterRequest.Password req)
            (config.BcryptCost cfg) = Ok hash
       /\ auth.Create accepts fresh now
            {| auth.ID := uuid.Nil;
               auth.Username := auth.RegisterRequest.Username req;
               auth.Email := auth.RegisterRequest.Email req;
               auth.Password := hash; auth.CreatedAt := zeroTime;
               auth.UpdatedAt := zeroTime |} db = (Ok user', db').
Proof.
  unfold auth.Register.
  destruct (auth.GetByEmail _ db) as [?|m1] eqn:He; [now left|].
  destruct (auth.GetByUsername _ db) as [?|m2] eqn:Hu; [now left|].
  destruct (GenerateFromPassword _ _ _) as [hash|?] eqn:Hh; [|now left].
  destruct (auth.Create _ _ _ _ _) as [[user'|msg] db'] eqn:Hc.
  - right. exists hash, user', db'.
    pose proof (Create_user _ _ _ _ _ _ _ _ _ Hc) as (Hf & _).
    unfold auth.GetByEmail, auth.GetByUsername, auth.lookup in He, Hu.
    rewrite Hf in He, Hu.
    destruct (auth.First _ _) in He; [done|].
    destruct (auth.First _ _) in Hu; [done|].
    injection He as <-. injection Hu as <-. done.
  - left. cbn. now apply Create_refused in Hc.
Qed.


(** X20: after a registration that succeeded, a login with the same email
    and password succeeds whenever a token can be made, for the same
    user, provided bcrypt accepts the hashes it makes; the stored
    password is the hash, and a login with a password that bcrypt does
    not accept for it is refused with the answer an unknown email gets. *)
Theorem register_then_login
    (accepts : auth.User -> list auth.User -> bool)
    (GenerateFromPassword : N -> string -> Z -> result string)
    (CompareHashAndPassword : string -> string -> bool)
    (GenerateToken : Time -> UUID -> result string)
    (cfg : config.Config) (salt : N) (fresh : UUID) (now : Time)
    (req : auth.RegisterRequest.t) (db db' : auth.UserDB)
    (r : auth.AuthResponse.t) :
  auth.bcrypt_accepts_its_hashes GenerateFromPassword CompareHashAndPassword ->
  auth.Register accepts GenerateFromPassword GenerateToken cfg salt fresh
    now req db = (Success r, db') ->
  auth.AuthResponse.UserID r = fresh
  /\ auth.AuthResponse.Username r = auth.RegisterRequest.Username req
  /\ auth.AuthResponse.Email r = auth.RegisterRequest.Email req
  /\ (exists user hash,
        auth.GetByEmail (auth.RegisterRequest.Email req) db' = Ok user
        /\ GenerateFromPassword salt (auth.RegisterRequest.Password req)
             (config.BcryptCost cfg) = Ok hash
        /\ auth.Password user = hash)
  /\ (forall now' token,
        GenerateToken now' fresh = Ok token ->
        auth.Login CompareHashAndPassword GenerateToken now'
          {| auth.LoginRequest.Email := auth.RegisterRequest.Email req;
             auth.LoginRequest.Password := auth.RegisterRequest.Password req |}
          db'
        = Success {| auth.AuthResponse.Token := token;
                     auth.AuthResponse.UserID := fresh;
                     auth.AuthResponse.Username := auth.RegisterRequest.Username req;
                     auth.AuthResponse.Email := auth.RegisterRequest.Email req |})
  /\ (forall now' password,
        (forall hash, GenerateFromPassword salt
                        (auth.RegisterRequest.Password req)
                        (config.BcryptCost cfg) = Ok hash ->
                      CompareHashAndPassword hash password = false) ->
        auth.Login CompareHashAndPassword GenerateToken now'
          {| auth.LoginRequest.Email := auth.RegisterRequest.Email req;
             auth.LoginRequest.Password := password |} db'
        = Failure (response.BadRequestError "invalid email or password")).
Proof.
  intros Hbcrypt Hreg.
  destruct (Register_cases accepts GenerateFromPassword GenerateToken cfg salt
              fresh now req db) as [Hsame|(hash & user' & d' & Hsteps)].
  - exfalso. revert Hreg Hsame. unfold auth.Register.
    destruct (auth.GetByEmail _ db); [done|].
    destruct (auth.GetByUsername _ db); [done|].
    destruct (GenerateFromPassword _ _ _); [|done].
    destruct (auth.Create _ _ _ _ _) as [[u|m] d] eqn:Hc; [|done].
    apply Create_user in Hc as (_ & _ & Hrows & _).
    destruct (GenerateToken _ _); [|done]. intros [= _ <-]. cbn.
    intros Hd. rewrite Hd in Hrows.
    apply (f_equal (@length _)) in Hrows. rewrite length_app in Hrows.
    cbn in Hrows. lia.
  - pose proof Hsteps as (_ & _ & Hhash & Hcreate).
    pose proof (Create_user _ _ _ _ _ _ _ _ _ Hcreate) as (_ & _ & _ & Huser).
    destruct (Register_inserts accepts GenerateFromPassword GenerateToken cfg
                salt fresh now req db user' d'
                ltac:(exists hash; exact Hsteps))
      as (_ & Hf' & Hrows & Hid & Hname & Hmail & Hnew & Heq).
    rewrite Heq in Hreg.
    destruct (GenerateToken now fresh) as [token|]; [|done].
    injection Hreg as <- <-.
    assert (auth.GetByEmail (auth.RegisterRequest.Email req) d' = Ok user')
      as Hget.
    { unfold auth.GetByEmail, auth.lookup. rewrite Hf', Hrows.
      rewrite First_last; [done| |].
      - intros u Hu. apply String.eqb_neq. now destruct (Hnew u Hu).
      - apply String.eqb_eq. exact Hmail. }
    assert (auth.Password user' = hash) as Hpw by (now subst user').
    cbn. split; [done|]. split; [done|]. split; [done|].
    split; [eauto|]. split.
    + intros now' token' Htok. unfold auth.Login. cbn. rewrite Hget, Hpw.
      rewrite (Hbcrypt _ _ _ _ Hhash), Hid, Htok.
      unfold auth.auth_response. now rewrite Hid, Hname, Hmail.
    + intros now' password Hwrong. unfold auth.Login. cbn.
      rewrite Hget, Hpw. now rewrite (Hwrong _ Hhash).
Qed.

(** X21: a registration that fails at the token has inserted the account:
    the row is in the table, and another registration with this email, or
    with this username, is refused as a duplicate. *)
Theorem failed_registration_keeps_the_account
    (accepts : auth.User -> list auth.User -> bool)
    (GenerateFromPassword : N -> string -> Z -> result string)
    (GenerateToken : Time -> UUID -> result string)
    (cfg : config.Config) (salt : N) (fresh : UUID) (now : Time)
    (req : auth.RegisterRequest.t) (db db' : auth.UserDB) :
  auth.Register accepts GenerateFromPassword GenerateToken cfg salt fresh
    now req db
  = (Failure (response.GeneralError "failed to generate token"), db') ->
  (exists user, auth.rows db' = (auth.rows db ++ [user])%list
                /\ auth.ID user = fresh
                /\ auth.Email user = auth.RegisterRequest.Email req
                /\ auth.Username user = auth.RegisterRequest.Username req)
  /\ (forall salt2 fresh2 now2 req2,
        auth.RegisterRequest.Email req2 = auth.RegisterRequest.Email req ->
        auth.Register accepts GenerateFromPassword GenerateToken cfg salt2
          fresh2 now2 req2 db'
        = (Failure (response.BadRequestError
                      "user with this email already exists"), db'))
  /\ (forall salt2 fresh2 now2 req2,
        auth.RegisterRequest.Email req2 <> auth.RegisterRequest.Email req ->
        auth.RegisterRequest.Username req2 = auth.RegisterRequest.Username req ->
        exists e,
          auth.Register accepts GenerateFromPassword GenerateToken cfg salt2
            fresh2 now2 req2 db' = (Failure e, db')
          /\ response.StatusCode e = 400).
Proof.
  intros Hreg.
  destruct (Register_cases accepts GenerateFromPassword GenerateToken cfg salt
              fresh now req db) as [Hsame|(hash & user' & d' & Hsteps)].
  - exfalso. revert Hreg Hsame. unfold auth.Register.
    destruct (auth.GetByEmail _ db); [done|].
    destruct (auth.GetByUsername _ db); [done|].
    destruct (GenerateFromPassword _ _ _); [|done].
    destruct (auth.Create _ _ _ _ _) as [[u|m] d] eqn:Hc; [|done].
    apply Create_user in Hc as (_ & _ & Hrows & _).
    destruct (GenerateToken _ _); [done|]. intros [= <-]. cbn.
    intros Hd. rewrite Hd in Hrows.
    apply (f_equal (@length _)) in Hrows. rewrite length_app in Hrows.
    cbn in Hrows. lia.
  - destruct (Register_inserts accepts GenerateFromPassword GenerateToken cfg
                salt fresh now req db user' d'
                ltac:(exists hash; exact Hsteps))
      as (_ & Hf' & Hrows & Hid & Hname & Hmail & Hnew & Heq).
    rewrite Heq in Hreg.
    destruct (GenerateToken now fresh) as [token|]; [done|].
    injection Hreg as <-.
    split; [eauto 6|]. split.
    + intros salt2 fresh2 now2 req2 Hmail2. unfold auth.Register.
      unfold auth.GetByEmail at 1. unfold auth.lookup. rewrite Hf', Hrows.
      rewrite First_last; [done| |].
      * intros u Hu. apply String.eqb_neq. rewrite Hmail2.
        now destruct (Hnew u Hu).
      * apply String.eqb_eq. congruence.
    + intros salt2 fresh2 now2 req2 Hmail2 Hname2. unfold auth.Register.
      destruct (auth.GetByEmail _ d'); [eauto|].
      unfold auth.GetByUsername, auth.lookup. rewrite Hf'.
      destruct (auth.First _ (auth.rows d')) eqn:HF; [eauto|].
      exfalso. apply First_None with (u := user') in HF.
      * apply String.eqb_neq in HF. congruence.
      * rewrite Hrows. apply in_or_app. right. now left.
Qed.

(** X22: a login succeeds only for an account of the table with the email
    of the request whose stored hash bcrypt accepts for the password of
    the request, and the response names that account; a login that is
    refused with 400 gets one and the same answer, whether the email is
    unknown, the password wrong, or the database failing. *)
Theorem login_is_for_a_stored_account
    (CompareHashAndPassword : string -> string -> bool)
    (GenerateToken : Time -> UUID -> result string)
    (now : Time) (req : auth.LoginRequest.t) (db : auth.UserDB) :
  match auth.Login CompareHashAndPassword GenerateToken now req db with
  | Success r =>
      exists user,
        In user (auth.rows db)
        /\ auth.Email user = auth.LoginRequest.Email req
        /\ CompareHashAndPassword (auth.Password user)
             (auth.LoginRequest.Password req) = true
        /\ GenerateToken now (auth.ID user) = Ok (auth.AuthResponse.Token r)
        /\ auth.AuthResponse.UserID r = auth.ID user
        /\ auth.AuthResponse.Username r = auth.Username user
        /\ auth.AuthResponse.Email r = auth.Email user
  | Failure e =>
      e = response.BadRequestError "invalid email or password"
      \/ e = response.GeneralError "failed to generate token"
  end.
Proof.
  unfold auth.Login, auth.GetByEmail, auth.lookup.
  destruct (auth.fault db); [auto|].
  destruct (auth.First _ (auth.rows db)) as [user|] eqn:HF; [|auto].
  apply First_Some in HF as [Hin Hmail]. apply String.eqb_eq in Hmail.
  destruct (CompareHashAndPassword _ _) eqn:Hc; [|auto].
  destruct (GenerateToken now (auth.ID user)) as [token|] eqn:Ht; [|auto].
  exists user. cbn. done.
Qed.


Lemma register_then_login_witness :
  exists r db',
    auth.bcrypt_accepts_its_hashes auth.toy_hash auth.toy_compare
    /\ auth.Register auth.takes_all auth.toy_hash auth.toy_token cfg_3_per_60
         7 12 2000 auth.carol auth.no_users = (Success r, db')
    /\ auth.AuthResponse.UserID r = 12%N.
Proof.
  assert (auth.bcrypt_accepts_its_hashes auth.toy_hash auth.toy_compare) as H1.
  { intros salt password cost hash [= <-]. apply String.eqb_refl. }
  destruct (auth.Register auth.takes_all auth.toy_hash auth.toy_token
              cfg_3_per_60 7 12 2000 auth.carol auth.no_users)
    as [[r|e] db'] eqn:H2.
  - exists r, db'. split; [exact H1|]. split; [reflexivity|].
    apply (register_then_login auth.takes_all auth.toy_hash auth.toy_compare
             auth.toy_token cfg_3_per_60 7 12 2000 auth.carol auth.no_users
             db' r H1 H2).
  - vm_compute in H2. discriminate.
Defined.

Lemma failed_registration_keeps_the_account_witness :
  exists db',
    auth.Register auth.takes_all auth.toy_hash auth.no_token cfg_3_per_60
      7 12 2000 auth.carol auth.no_users
    = (Failure (response.GeneralError "failed to generate token"), db')
    /\ exists user, auth.rows db' = [user]
                    /\ auth.Email user = "carol@example.org".
Proof.
  exists (auth.Register auth.takes_all auth.toy_hash auth.no_token
            cfg_3_per_60 7 12 2000 auth.carol auth.no_users).2.
  assert (auth.Register auth.takes_all auth.toy_hash auth.no_token
            cfg_3_per_60 7 12 2000 auth.carol auth.no_users
          = (Failure (response.GeneralError "failed to generate token"),
             (auth.Register auth.takes_all auth.toy_hash auth.no_token
                cfg_3_per_60 7 12 2000 auth.carol auth.no_users).2)) as H
    by (vm_compute; reflexivity).
  split; [exact H|].
  destruct (failed_registration_keeps_the_account auth.takes_all auth.toy_hash
              auth.no_token cfg_3_per_60 7 12 2000 auth.carol auth.no_users
              _ H) as ((user & Hrows & _ & Hmail & _) & _).
  exists user. split; [exact Hrows|exact Hmail].
Defined.
